(** * Bicluster parallel-coordinates generator: loaders, reader, renderers

    A shallow embedding of [src/bic_parallel_coords.py] (class
    [BiclusterVisualizer]) and the properties of its loaders, of the
    bicluster reader and of the two renderers.

    Conventions of the embedding.
    - A Python [str] is a [string]; its characters are the code points below
      256.  A text file is the list of lines that iterating over the file
      object yields, every line carrying its terminating newline.
    - A Python exception is a constructor of [exn]; code that may raise
      returns [res A].
    - Floats are not computed with.  Parsing a float is an operation of a
      [PyFloat] model, over which the definitions and the theorems are
      generic; a text with floats formatted into it is kept as the sequence
      of its pieces ([text]). *)

From Stdlib Require Import Ascii List ZArith Lia Bool DecimalString DecimalNat.
From Stdlib Require String.
From stdpp Require Import base option list gmap strings.
Import ListNotations.

Local Open Scope Z_scope.

(** ** Python string primitives *)

Module Py.

Definition nl : string := String (ascii_of_nat 10) "".
Definition tab : string := String (ascii_of_nat 9) "".

(** [str.isspace] on one character: TAB, LF, VT, FF, CR, the separators
    FS, GS, RS, US, the space, NEL and the no-break space. *)
Definition isspace (c : ascii) : bool :=
  let n := nat_of_ascii c in
  ((9 <=? n) && (n <=? 13) || (28 <=? n) && (n <=? 32)
   || (n =? 133) || (n =? 160))%nat.

(** Membership of a character in the [chars] argument of [strip]. *)
Fixpoint in_chars (chars : string) (c : ascii) : bool :=
  match chars with
  | EmptyString => false
  | String d chars' => Ascii.eqb c d || in_chars chars' c
  end.

Fixpoint lstrip_by (p : ascii -> bool) (s : string) : string :=
  match s with
  | EmptyString => EmptyString
  | String c s' => if p c then lstrip_by p s' else s
  end.

Definition rstrip_by (p : ascii -> bool) (s : string) : string :=
  String.rev (lstrip_by p (String.rev s)).

(** [s.strip()] *)
Definition strip (s : string) : string := rstrip_by isspace (lstrip_by isspace s).
(** [s.lstrip(chars)], [s.rstrip(chars)], [s.strip(chars)] *)
Definition lstrip (chars s : string) : string := lstrip_by (in_chars chars) s.
Definition rstrip (chars s : string) : string := rstrip_by (in_chars chars) s.
Definition strip_chars (chars s : string) : string := rstrip chars (lstrip chars s).

(** Truth value of a string: non-empty. *)
Definition truthy (s : string) : bool :=
  match s with EmptyString => false | _ => true end.

(** [s.startswith(p)] and [s.endswith(p)] *)
Definition startswith (s p : string) : bool := String.prefix p s.
Definition endswith (s p : string) : bool := String.prefix (String.rev p) (String.rev s).

(** [s.split(sep)] for a non-empty [sep]: the pieces between the
    occurrences of [sep], found from the left and not overlapping.  [skip]
    counts the characters of a separator still to pass over, [cur] is the
    piece being read, reversed. *)
Fixpoint split_go (sep : string) (skip : nat) (cur : string) (s : string)
  : list string :=
  match s with
  | EmptyString => [String.rev cur]
  | String c s' =>
      match skip with
      | S k => split_go sep k cur s'
      | O =>
          if String.prefix sep s
          then String.rev cur :: split_go sep (Nat.pred (String.length sep)) "" s'
          else split_go sep O (String c cur) s'
      end
  end.

Definition split (s sep : string) : list string := split_go sep O "" s.

(** [sep.join(l)] *)
Fixpoint join (sep : string) (l : list string) : string :=
  match l with
  | [] => ""
  | [x] => x
  | x :: l' => x +:+ sep +:+ join sep l'
  end.

(** The characters of a string, as iterating over it yields them. *)
Fixpoint chars (s : string) : list string :=
  match s with
  | EmptyString => []
  | String c s' => String c "" :: chars s'
  end.

(** [str(n)] for an integer [n >= 0]. *)
Definition str_of_nat (n : nat) : string := NilEmpty.string_of_uint (Nat.to_uint n).

(** [x in l] for a string [x] and a list of strings [l]. *)
Definition str_in (x : string) (l : list string) : bool :=
  existsb (String.eqb x) l.

End Py.

(** ** Exceptions and results *)

Inductive exn : Set :=
| KeyError | IndexError | TypeError | ValueError | FileNotFoundError.

(** [LookupError] is the base class of [KeyError] and [IndexError]. *)
Definition is_LookupError (e : exn) : bool :=
  match e with KeyError | IndexError => true | _ => false end.

Inductive res (A : Type) : Type :=
| Ok (a : A)
| Raise (e : exn).
Arguments Ok {A} a.
Arguments Raise {A} e.

#[global] Instance res_ret : MRet res := fun A a => Ok a.
#[global] Instance res_bind : MBind res := fun A B k r =>
  match r with Ok a => k a | Raise e => Raise e end.

(** A list comprehension whose body may raise: left to right, the first
    exception ends it. *)
Fixpoint rmap {A B} (f : A -> res B) (l : list A) : res (list B) :=
  match l with
  | [] => Ok []
  | x :: l' => y ← f x; ys ← rmap f l'; Ok (y :: ys)
  end.

(** [l[i]] on a list. *)
Definition getitem {A} (l : list A) (i : nat) : res A :=
  match nth_error l i with Some x => Ok x | None => Raise IndexError end.

(** [d[k]] on a dict entry that may be absent. *)
Definition getkey {A} (v : option A) : res A :=
  match v with Some x => Ok x | None => Raise KeyError end.

(** ** Floats

    What the program parses into floats, left to the model: [float(s)] on
    a string, and the conversion of one string cell by
    [pandas.to_numeric]. *)

Class PyFloat : Type := {
  pyfloat : Type;
  float_of_str : string -> option pyfloat;
  numeric_of_str : string -> option pyfloat
}.

(** The data that hold floats, over the type [F] of the floats. *)

Section FloatData.
Context {F : Type}.

(** A text built from literal pieces and formatted floats:
    [Fmt3e x] is ["{:.3e}".format(x)], scientific notation with three
    digits after the point, and [Round3 x] is [str(round(x, 3))]. *)
Inductive piece_of : Type :=
| Lit (s : string)
| Fmt3e (x : F)
| Round3 (x : F).

(** A bicluster record is the dict [current_bic]; a key that was never
    assigned is [None]. *)
Record bicluster_of : Type := mk_bic {
  bic_pattern : option (list string);
  bic_cols : option (list string);
  bic_lines : option (list string);
  bic_pvalue : option F;
  bic_lifts : option (list F)
}.

(** A cell of the frame handed to the chart: a string, a missing cell, an
    integer of the color column, a float, the not-a-number float. *)
Inductive value_of : Type :=
| VStr (s : string)
| VNone
| VInt (z : Z)
| VFloat (x : F)
| VNan.

End FloatData.

Arguments piece_of : clear implicits.
Arguments bicluster_of : clear implicits.
Arguments value_of : clear implicits.

Abbreviation piece := (piece_of pyfloat).
Abbreviation text := (list (piece_of pyfloat)).
Abbreviation bicluster := (bicluster_of pyfloat).
Abbreviation value := (value_of pyfloat).

(** [float(s)]: a [ValueError] when [s] is no float literal. *)
Definition float_ `{PyFloat} (s : string) : res pyfloat :=
  match float_of_str s with Some x => Ok x | None => Raise ValueError end.

(** ** The bicluster reader *)

Definition empty_bic `{PyFloat} : bicluster := mk_bic None None None None None.

Section Reader.
Context `{FM : PyFloat}.

(** The body of [for elem in line.split(" ")], on the tokens still to
    scan.  The [Lifts=] case reads the whole [line] and ends the scan
    ([break]). *)
Fixpoint scan_tokens (line : string) (elems : list string) (current_bic : bicluster)
  : res bicluster :=
  match elems with
  | [] => Ok current_bic
  | elem :: rest =>
      if Py.startswith elem "I=" then
        pattern ← getitem (Py.split elem "=") 1%nat;
        scan_tokens line rest
          (mk_bic (Some (Py.split (Py.rstrip "]" (Py.lstrip "[" pattern)) ","))
             (bic_cols current_bic) (bic_lines current_bic)
             (bic_pvalue current_bic) (bic_lifts current_bic))
      else if Py.startswith elem "Y=" then
        cols ← getitem (Py.split elem "=") 1%nat;
        scan_tokens line rest
          (mk_bic (bic_pattern current_bic)
             (Some (Py.split (Py.rstrip "]" (Py.lstrip "[" cols)) ","))
             (bic_lines current_bic)
             (bic_pvalue current_bic) (bic_lifts current_bic))
      else if Py.startswith elem "X=" then
        lines ← getitem (Py.split elem "=") 1%nat;
        scan_tokens line rest
          (mk_bic (bic_pattern current_bic) (bic_cols current_bic)
             (Some (Py.split (Py.rstrip "]" (Py.lstrip "[" lines)) ","))
             (bic_pvalue current_bic) (bic_lifts current_bic))
      else if Py.startswith elem "pvalue=" then
        v ← getitem (Py.split elem "=") 1%nat;
        pvalue ← float_ v;
        scan_tokens line rest
          (mk_bic (bic_pattern current_bic) (bic_cols current_bic)
             (bic_lines current_bic) (Some pvalue) (bic_lifts current_bic))
      else if Py.startswith elem "Lifts=" then
        lifts ← getitem (Py.split line "Lifts=") 1%nat;
        fs ← rmap float_
                (Py.split (Py.rstrip ("]" +:+ Py.nl) (Py.lstrip "[" lifts)) ",");
        Ok (mk_bic (bic_pattern current_bic) (bic_cols current_bic)
              (bic_lines current_bic) (bic_pvalue current_bic) (Some fs))
      else scan_tokens line rest current_bic
  end.

(** One record line: [current_bic = {}] and the scan of its tokens. *)
Definition parse_record (line : string) : res bicluster :=
  scan_tokens line (Py.split line " ") empty_bic.

(** The variables of the loop of [load_biclusters].  [results[i] =
    bic_batch] stores the list object itself, but no record is appended to
    it afterwards: appending needs [flag == 1], which only a [FOUND] line
    sets, and that line binds [bic_batch] to a new list.  So the committed
    value is the list at the time of the commit. *)
Record reader_state : Type := mk_reader {
  rd_results : gmap Z (list bicluster);
  rd_i : Z;
  rd_flag : Z;
  rd_bic_batch : list bicluster
}.

Definition reader_init : reader_state := mk_reader ∅ (-1) 0 [].

(** One iteration of [for line in f]. *)
Definition reader_step (st : reader_state) (line : string) : res reader_state :=
  if Py.truthy (Py.strip line) then
    if Py.startswith line "FOUND" then
      Ok (mk_reader (rd_results st) (rd_i st + 1) 1 [])
    else if Py.startswith line " " && (rd_flag st =? 1) then
      current_bic ← parse_record line;
      Ok (mk_reader (rd_results st) (rd_i st) (rd_flag st)
            (rd_bic_batch st ++ [current_bic]))
    else Ok st
  else
    Ok (mk_reader
          (if 0 <=? rd_i st then <[rd_i st := rd_bic_batch st]> (rd_results st)
           else rd_results st)
          (rd_i st) 0 (rd_bic_batch st)).

Fixpoint reader_loop (st : reader_state) (f : list string) : res reader_state :=
  match f with
  | [] => Ok st
  | line :: f' => st' ← reader_step st line; reader_loop st' f'
  end.

(** [load_biclusters], on the lines of the opened file. *)
Definition load_biclusters_lines (f : list string) : res (gmap Z (list bicluster)) :=
  st ← reader_loop reader_init f; Ok (rd_results st).

End Reader.

(** ** Datasets

    A [pandas.DataFrame] as the program uses it: the column labels and the
    rows, every row as wide as the labels.  The loaders build frames of
    object cells, [Some s] a string and [None] a missing cell. *)

Record DataFrame (C : Type) : Type := mk_df {
  df_columns : list string;
  df_rows : list (list C)
}.
Arguments mk_df {C} _ _.
Arguments df_columns {C} _.
Arguments df_rows {C} _.

Abbreviation frame := (DataFrame (option string)).

(** One entry of [main_var]: the dict with the keys ['var'] and ['vals']. *)
Record column_meta : Type := mk_meta {
  var : string;
  vals : list string
}.

Definition max_width {A} (data : list (list A)) : nat :=
  foldr (fun row w => Nat.max (length row) w) O data.

Definition pad_row {A} (w : nat) (row : list A) : list (option A) :=
  map Some row ++ repeat None (w - length row).

(** [pd.DataFrame(data, columns=columns)] on a list of rows of strings.
    Short rows are filled with missing cells up to the longest row; labels
    that do not number as many as the longest row has cells are refused
    with a [ValueError].  Without labels pandas numbers the columns; the
    loaders reach that case with no row only. *)
Definition pd_DataFrame (data : list (list string)) (columns : option (list string))
  : res frame :=
  match data with
  | [] => Ok (mk_df (default [] columns) [])
  | _ =>
      let w := max_width data in
      match columns with
      | None => Ok (mk_df (map Py.str_of_nat (seq 0 w)) (map (pad_row w) data))
      | Some cs =>
          if (length cs =? w)%nat then Ok (mk_df cs (map (pad_row w) data))
          else Raise ValueError
      end
  end.

(** [pd.notna] on an object cell. *)
Definition notna {A} (c : option A) : bool :=
  match c with Some _ => true | None => false end.

(** [df.dropna(how='all')]: the rows with every cell missing go. *)
Definition dropna_all (df : frame) : frame :=
  mk_df (df_columns df) (List.filter (existsb notna) (df_rows df)).

(** ** The file system and the visualizer object *)

Inductive chart_kind : Set := ParallelCategories | ParallelCoordinates.

Section Charts.
Context {F : Type}.

(** What the charting library receives: the frame with its color column,
    the dimension list, and the texts of the annotations added. *)
Record figure_of : Type := mk_fig {
  fig_kind : chart_kind;
  fig_data : DataFrame (value_of F);
  fig_color : string;
  fig_dimensions : list string;
  fig_annotations : list (list (piece_of F))
}.

(** The files that can be read, the paths [open] was called on, the
    directories made and the charts written. *)
Record world_of : Type := mk_world {
  w_files : gmap string (list string);
  w_opened : list string;
  w_dirs : list string;
  w_html : gmap string figure_of
}.

End Charts.

Arguments figure_of : clear implicits.
Arguments world_of : clear implicits.

Abbreviation figure := (figure_of pyfloat).
Abbreviation world := (world_of pyfloat).

Section Program.
Context `{FM : PyFloat}.

(** [open(path, "r")] followed by the iteration over the lines. *)
Definition open (w : world) (path : string) : res (list string) * world :=
  let w' := mk_world (w_files w) (w_opened w ++ [path]) (w_dirs w) (w_html w) in
  match w_files w !! path with
  | Some f => (Ok f, w')
  | None => (Raise FileNotFoundError, w')
  end.

(** The attribute of [self] that the methods use. *)
Record visualizer : Type := mk_self { counter : nat }.

Definition init : visualizer := mk_self 0.

(** ** Loaders *)

Definition strip_set : string := "[ ,'}" +:+ String (ascii_of_nat 34) "" +:+ Py.nl +:+ "]".

Record arff_state : Type := mk_arff {
  af_flag : Z;
  af_data : list (list string);
  af_cols : list string;
  af_counter : Z;
  af_main_var : list column_meta
}.

(** One iteration of the first loop of [__load_data_arff]. *)
Definition arff_step (st : arff_state) (line : string) : res arff_state :=
  if Py.truthy (Py.strip line) then
    if af_flag st =? 1 then
      Ok (mk_arff (af_flag st)
            (af_data st ++ [Py.split (Py.rstrip Py.nl line) ","])
            (af_cols st) (af_counter st) (af_main_var st))
    else if Py.startswith line "@ATTRIBUTE" then
      let counter := af_counter st + 1 in
      entry ←
        (if (1 <? counter)
            && (1 <? String.length (default "" (head (Py.split line "{"))))%nat
         then
           name ← getitem (Py.split line Py.tab) 1%nat;
           decl ← getitem (Py.split line Py.tab) 2%nat;
           Ok (mk_meta (Py.join "" (Py.chars (Py.strip_chars strip_set name)))
                 (map (Py.strip_chars strip_set) (Py.split decl ",")))
         else
           name ← getitem (Py.split line Py.tab) 1%nat;
           Ok (mk_meta (Py.join "" (Py.chars (Py.strip_chars strip_set name))) []));
      name ← getitem (Py.split line Py.tab) 1%nat;
      Ok (mk_arff (af_flag st) (af_data st)
            (af_cols st ++ [Py.strip name]) counter
            (af_main_var st ++ [entry]))
    else if Py.startswith line "@DATA" then
      Ok (mk_arff 1 (af_data st) (af_cols st) (af_counter st) (af_main_var st))
    else Ok st
  else Ok st.

Fixpoint arff_loop (st : arff_state) (f : list string) : res arff_state :=
  match f with
  | [] => Ok st
  | line :: f' => st' ← arff_step st line; arff_loop st' f'
  end.

(** [for l in range(len(data))] for one kept column [col]. *)
Fixpoint arff_fill (data : list (list string)) (col : nat) (ls : list nat)
    (final_data : list (list string)) : res (list (list string)) :=
  match ls with
  | [] => Ok final_data
  | l :: ls' =>
      let final_data' :=
        if (l + 1 <=? length final_data)%nat then final_data
        else final_data ++ [[]] in
      _ ← getitem final_data' l;
      row ← getitem data l;
      v ← getitem row col;
      arff_fill data col ls' (alter (fun r => r ++ [v]) l final_data')
  end.

(** [for col in range(len(cols))]: the first column of every name is
    kept. *)
Fixpoint arff_columns (data : list (list string)) (cols : list string)
    (cs : list nat) (final_cols : list string) (final_data : list (list string))
  : res (list string * list (list string)) :=
  match cs with
  | [] => Ok (final_cols, final_data)
  | col :: cs' =>
      name ← getitem cols col;
      if Py.str_in name final_cols then arff_columns data cols cs' final_cols final_data
      else
        final_data' ← arff_fill data col (seq 0 (length data)) final_data;
        arff_columns data cols cs' (final_cols ++ [name]) final_data'
  end.

(** [__load_data_arff], on the lines of the opened file. *)
Definition load_data_arff_lines (f : list string) : res (frame * list column_meta) :=
  st ← arff_loop (mk_arff 0 [] [] 0 []) f;
  '(final_cols, final_data) ←
    arff_columns (af_data st) (af_cols st) (seq 0 (length (af_cols st))) [] [];
  df ← pd_DataFrame final_data (Some final_cols);
  Ok (dropna_all df, af_main_var st).

(** [__load_data_csv], on the lines of the opened file: the loop keeps
    [cols], [data] and [counter]. *)
Fixpoint csv_loop (f : list string) (cols : option (list string))
    (data : list (list string)) (counter : Z)
  : option (list string) * list (list string) :=
  match f with
  | [] => (cols, data)
  | line :: f' =>
      if counter =? 0
      then csv_loop f' (Some (Py.split (Py.rstrip Py.nl line) ",")) data (counter + 1)
      else csv_loop f' cols (data ++ [Py.split (Py.rstrip Py.nl line) ","]) (counter + 1)
  end.

Definition load_data_csv_lines (f : list string) : res (frame * list column_meta) :=
  let '(cols, data) := csv_loop f None [] 0 in
  df ← pd_DataFrame data cols;
  Ok (dropna_all df, []).

(** [__load_data_txt], on the lines of the opened file. *)
Fixpoint txt_loop (f : list string) (cols : list string)
    (data : list (list string)) (counter : Z)
  : res (list string * list (list string)) :=
  match f with
  | [] => Ok (cols, data)
  | line :: f' =>
      if counter =? 1 then
        h ← getitem (Py.split line ": [") 1%nat;
        txt_loop f' ("lines" :: Py.split (Py.rstrip ("]" +:+ Py.nl) h) ", ")
          data (counter + 1)
      else if 1 <? counter then
        txt_loop f' cols (data ++ [Py.split (Py.rstrip ("|" +:+ Py.nl) line) "|"])
          (counter + 1)
      else txt_loop f' cols data (counter + 1)
  end.

Definition load_data_txt_lines (f : list string) : res (frame * list column_meta) :=
  '(cols, data) ← txt_loop f [] [] 0;
  df ← pd_DataFrame data (Some cols);
  Ok (dropna_all df, []).

(** A loader applied to a path: the file is opened, then read. *)
Definition with_file {A} (w : world) (path : string) (k : list string -> res A)
  : res A * world :=
  match open w path with
  | (Ok f, w') => (k f, w')
  | (Raise e, w') => (Raise e, w')
  end.

(** [load_data]: the result is [None] when no branch of the [if] is
    taken, as a Python function that ends without [return] gives. *)
Definition load_data (w : world) (data_filename : string)
  : res (option (frame * list column_meta)) * world :=
  if Py.endswith data_filename ".arff" then
    with_file w data_filename (fun f => r ← load_data_arff_lines f; Ok (Some r))
  else if Py.endswith data_filename ".csv" then
    with_file w data_filename (fun f => r ← load_data_csv_lines f; Ok (Some r))
  else if Py.endswith data_filename ".txt" then
    with_file w data_filename (fun f => r ← load_data_txt_lines f; Ok (Some r))
  else (Ok None, w).

(** [load_biclusters] *)
Definition load_biclusters (w : world) (bic_filename : string)
  : res (gmap Z (list bicluster)) * world :=
  with_file w bic_filename load_biclusters_lines.

(** ** Renderers *)

(** [df.iloc[:,0].values]: an [IndexError] on a frame without columns. *)
Definition first_column (df : frame) : res (list (option string)) :=
  match df_columns df with
  | [] => Raise IndexError
  | _ => Ok (map (fun row => default None (head row)) (df_rows df))
  end.

(** [len(set(values))] *)
Definition distinct (values : list (option string)) : nat :=
  length (remove_dups values).

(** [x in bic['lines']] for a cell [x] of the first column: a missing cell
    equals no string. *)
Definition cell_in (x : option string) (l : list string) : bool :=
  match x with Some s => Py.str_in s l | None => false end.

(** [[1 if str(x) in bic['lines'] else 0 for x in range(len(df))]] *)
Definition color_positional (bic : bicluster) (df : frame) : res (list Z) :=
  rmap (fun x => lines ← getkey (bic_lines bic);
                 Ok (if Py.str_in (Py.str_of_nat x) lines then 1 else 0))
       (seq 0 (length (df_rows df))).

(** [[1 if x in bic['lines'] else 0 for x in list(df.iloc[:,0].values)]] *)
Definition color_by_value (bic : bicluster) (df : frame) : res (list Z) :=
  values ← first_column df;
  rmap (fun x => lines ← getkey (bic_lines bic);
                 Ok (if cell_in x lines then 1 else 0))
       values.

(** The color vector of [plot_parallel_categories].  The test
    [len(set(v)) < len(v)/2] compares an integer with a float quotient and
    holds exactly when twice the first is below the second. *)
Definition color_categories (bic : bicluster) (df : frame) : res (list Z) :=
  values ← first_column df;
  if (2 * distinct values <? length values)%nat
  then color_positional bic df
  else color_by_value bic df.

(** The color vector of [plot_parallel_coordinates]. *)
Definition color_coordinates (bic : bicluster) (df : frame) : res (list Z) :=
  values ← first_column df;
  if (distinct values <? length values)%nat
  then color_positional bic df
  else color_by_value bic df.

(** The positions of the label [name] among the columns. *)
Fixpoint positions (name : string) (columns : list string) (i : nat) : list nat :=
  match columns with
  | [] => []
  | c :: columns' =>
      if String.eqb c name then i :: positions name columns' (S i)
      else positions name columns' (S i)
  end.

(** The columns that [df[names]] selects: a [KeyError] for a label that no
    column has. *)
Fixpoint select_positions (names : list string) (columns : list string)
  : res (list nat) :=
  match names with
  | [] => Ok []
  | name :: names' =>
      match positions name columns 0 with
      | [] => Raise KeyError
      | ps => qs ← select_positions names' columns; Ok (ps ++ qs)
      end
  end.

Definition object_value (c : option string) : value :=
  match c with Some s => VStr s | None => VNone end.

(** [df = df[bic['cols']]] *)
Definition project (bic : bicluster) (df : frame) : res (DataFrame value) :=
  names ← getkey (bic_cols bic);
  ps ← select_positions names (df_columns df);
  Ok (mk_df (map (fun p => nth p (df_columns df) "") ps)
        (map (fun row => map (fun p => object_value (nth p row None)) ps)
           (df_rows df))).

(** [df.insert(len(df.columns), "color", color, True)] *)
Definition insert_color (df : DataFrame value) (color : list Z) : DataFrame value :=
  mk_df (df_columns df ++ ["color"])
    (zip_with (fun row c => row ++ [VInt c]) (df_rows df) color).

(** [df.replace(to_replace='?', value=float('nan'))] on one cell. *)
Definition replace_missing (v : value) : value :=
  match v with
  | VStr s => if String.eqb s "?" then VNan else v
  | _ => v
  end.

(** [pd.to_numeric] on one cell: the empty string becomes not-a-number,
    as a missing cell does; any other string is parsed, and a string that
    is no number is a [ValueError]. *)
Definition to_numeric (v : value) : res value :=
  match v with
  | VStr s =>
      if String.eqb s "" then Ok VNan
      else
        match numeric_of_str s with
        | Some x => Ok (VFloat x)
        | None => Raise ValueError
        end
  | VNone => Ok VNan
  | _ => Ok v
  end.

(** [df.replace(...)] then [df.apply(pd.to_numeric)]: whichever cell
    fails, the exception is the same. *)
Definition coerce (df : DataFrame value) : res (DataFrame value) :=
  rows ← rmap (rmap (fun v => to_numeric (replace_missing v))) (df_rows df);
  Ok (mk_df (df_columns df) rows).

(** [main_var] after [if main_var: main_var = main_var[0]]: the first
    entry, or still the empty list, here [None]. *)
Definition first_meta (main_var : list column_meta) : option column_meta :=
  head main_var.

(** The loop that builds the lift lines, from the text [lift] so far. *)
Fixpoint lift_lines (vs : list string) (lifts : option (list pyfloat))
    (range : list nat) (lift : text) : res text :=
  match range with
  | [] => Ok lift
  | i :: range' =>
      v ← getitem vs i;
      fl ← getkey lifts;
      x ← getitem fl i;
      lift_lines vs lifts range'
        (lift ++ [Lit ("    " +:+ v +:+ " = "); Round3 x; Lit "<br>"])
  end.

Definition lift_text (m : column_meta) (bic : bicluster) : res text :=
  lift_lines (vals m) (bic_lifts bic) (seq 0 (length (vals m))) [Lit "<br>Lift:<br>"].

(** The annotations of [plot_parallel_categories]: the lift lines need
    [main_var and main_var['vals'] and "lifts" in bic]. *)
Definition annotate_categories (bic : bicluster) (main_var : option column_meta)
  : res (list text) :=
  match bic_pvalue bic with
  | None => Ok []
  | Some pvalue =>
      lift ←
        match main_var with
        | None => Ok []
        | Some m =>
            if negb (bool_decide (vals m = [])) && bool_decide (is_Some (bic_lifts bic))
            then lift_text m bic else Ok []
        end;
      Ok [Lit "P-value = " :: Fmt3e pvalue :: lift]
  end.

(** The annotations of [plot_parallel_coordinates]: the test is
    [main_var['vals'] and "lifts" in bic], and [main_var['vals']] on the
    empty list is a [TypeError]. *)
Definition annotate_coordinates (bic : bicluster) (main_var : option column_meta)
  : res (list text) :=
  match bic_pvalue bic with
  | None => Ok []
  | Some pvalue =>
      lift ←
        match main_var with
        | None => Raise TypeError
        | Some m =>
            if negb (bool_decide (vals m = [])) && bool_decide (is_Some (bic_lifts bic))
            then lift_text m bic else Ok []
        end;
      Ok [Lit "P-value = " :: Fmt3e pvalue :: lift]
  end.

(** [px.parallel_categories] and [px.parallel_coordinates], as far as the
    program depends on them: a frame with a repeated column label is
    refused with a [ValueError]; otherwise the call returns the figure of
    the frame, the color column and the dimensions, without
    annotations. *)
Definition px_parallel (kind : chart_kind) (df : DataFrame value)
    (dimensions : list string) : res figure :=
  if bool_decide (NoDup (df_columns df))
  then Ok (mk_fig kind df "color" dimensions [])
  else Raise ValueError.

(** [fig.add_annotation(text=...)] for each of [notes]. *)
Definition add_annotations (fig : figure) (notes : list text) : figure :=
  mk_fig (fig_kind fig) (fig_data fig) (fig_color fig) (fig_dimensions fig)
    (fig_annotations fig ++ notes).

(** [plot_parallel_categories] up to the call of [px.parallel_categories]:
    the color vector, the projection, the color column, the chart. *)
Definition chart_categories (bic : bicluster) (df : frame) : res figure :=
  color ← color_categories bic df;
  df ← project bic df;
  let df := insert_color df color in
  dimensions ← getkey (bic_cols bic);
  px_parallel ParallelCategories df dimensions.

(** [plot_parallel_coordinates] up to the call of
    [px.parallel_coordinates]: as above, with the conversion to numbers
    before the chart. *)
Definition chart_coordinates (bic : bicluster) (df : frame) : res figure :=
  color ← color_coordinates bic df;
  df ← project bic df;
  let df := insert_color df color in
  df ← coerce df;
  dimensions ← getkey (bic_cols bic);
  px_parallel ParallelCoordinates df dimensions.

(** The figure of [plot_parallel_categories], up to [fig.update_traces]. *)
Definition figure_categories (bic : bicluster) (df : frame)
    (main_var : list column_meta) : res figure :=
  let main_var := first_meta main_var in
  fig ← chart_categories bic df;
  notes ← annotate_categories bic main_var;
  Ok (add_annotations fig notes).

(** The figure of [plot_parallel_coordinates], up to [fig.update_layout]. *)
Definition figure_coordinates (bic : bicluster) (df : frame)
    (main_var : list column_meta) : res figure :=
  let main_var := first_meta main_var in
  fig ← chart_coordinates bic df;
  notes ← annotate_coordinates bic main_var;
  Ok (add_annotations fig notes).

(** [os.makedirs(dir, exist_ok=True)], [fig.write_html(dir + name)] and
    [self.counter += 1]; the file system is taken to accept both. *)
Definition write_chart (self : visualizer) (w : world) (dir : string) (fig : figure)
  : visualizer * world :=
  let path := dir +:+ "pc_" +:+ Py.str_of_nat (counter self) +:+ ".html" in
  (mk_self (counter self + 1),
   mk_world (w_files w) (w_opened w)
     (if bool_decide (dir ∈ w_dirs w) then w_dirs w else w_dirs w ++ [dir])
     (<[path := fig]> (w_html w))).

Definition plot_parallel_categories (self : visualizer) (w : world)
    (bic : bicluster) (df : frame) (main_var : list column_meta)
    (folder_name : string) : res unit * (visualizer * world) :=
  match figure_categories bic df main_var with
  | Raise e => (Raise e, (self, w))
  | Ok fig =>
      (Ok tt,
       write_chart self w ("results/ParallelCategories (" +:+ folder_name +:+ ")/") fig)
  end.

Definition plot_parallel_coordinates (self : visualizer) (w : world)
    (bic : bicluster) (df : frame) (main_var : list column_meta)
    (folder_name : string) : res unit * (visualizer * world) :=
  match figure_coordinates bic df main_var with
  | Raise e => (Raise e, (self, w))
  | Ok fig =>
      (Ok tt,
       write_chart self w ("results/ParallelCoordinates (" +:+ folder_name +:+ ")/") fig)
  end.

(** [plot_bicluster]: the mode selects the renderer; with any other mode
    no branch is taken and nothing happens.  The caller that leaves the
    mode out gets ['categories']. *)
Definition plot_bicluster (self : visualizer) (w : world)
    (bic : bicluster) (df : frame) (main_var : list column_meta)
    (folder_name : string) (mode : string) : res unit * (visualizer * world) :=
  if String.eqb mode "categories" then
    plot_parallel_categories self w bic df main_var folder_name
  else if String.eqb mode "coordinates" then
    plot_parallel_coordinates self w bic df main_var folder_name
  else (Ok (), (self, w)).

End Program.

(** ** A float model for decimal literals

    The literals [sign digits . digits e sign digits] with the white space
    around them ignored, kept exactly as [m * 10^e] with [m] not a multiple
    of ten.  It serves the executions on the concrete files below, whose
    literals are short, and is no model of all floats: the infinities and
    not-a-number ([inf], [nan], which both [float] and [pd.to_numeric]
    read), the underscores that [float] allows between digits and the
    rounding to binary are left out.  The theorems are generic in the
    float model and do not depend on it. *)

Module DecimalFloat.

(** The leading digits of [s]: their value added to [acc], their number
    added to [n], and the rest of [s]. *)
Fixpoint digits (s : string) (acc : Z) (n : nat) : Z * nat * string :=
  match s with
  | String c s' =>
      match Ascii.is_nat c with
      | Some d => digits s' (10 * acc + Z.of_nat d) (S n)
      | None => (acc, n, s)
      end
  | EmptyString => (acc, n, s)
  end.

Definition sign (s : string) : bool * string :=
  match s with
  | String "-" s' => (true, s')
  | String "+" s' => (false, s')
  | _ => (false, s)
  end.

(** The exponent part, possibly absent; [None] when it is ill-formed or
    followed by anything. *)
Definition exponent (s : string) : option Z :=
  match s with
  | EmptyString => Some 0
  | String c s' =>
      if Ascii.eqb c "e" || Ascii.eqb c "E" then
        let '(neg, s1) := sign s' in
        match digits s1 0 0 with
        | (e, S _, EmptyString) => Some (if neg then - e else e)
        | _ => None
        end
      else None
  end.

Definition literal (s : string) : option (Z * Z) :=
  let '(neg, s1) := sign s in
  let '(ip, ni, s2) := digits s1 0 0 in
  let '(m, nf, s3) :=
    match s2 with
    | String "." s' => digits s' ip 0
    | _ => (ip, O, s2)
    end in
  if (ni + nf =? 0)%nat then None
  else e ← exponent s3; Some (if neg then - m else m, e - Z.of_nat nf).

(** [m * 10^e] with the factors of ten moved out of [m]; [fuel] bounds
    their number. *)
Fixpoint normalize (fuel : nat) (m e : Z) : Z * Z :=
  match fuel with
  | O => (m, e)
  | S fuel' =>
      if m =? 0 then (0, 0)
      else if m mod 10 =? 0 then normalize fuel' (m / 10) (e + 1)
      else (m, e)
  end.

Definition parse (s : string) : option (Z * Z) :=
  '(m, e) ← literal (Py.strip s);
  Some (normalize (Z.to_nat (Z.log2 (Z.abs m)) + 1) m e).

#[global] Instance model : PyFloat := {|
  pyfloat := Z * Z;
  float_of_str := parse;
  numeric_of_str := parse
|}.

End DecimalFloat.

(** ** Lines and blocks *)

(** A line with its newline, and a line of tab-separated fields. *)
Definition ln (s : string) : string := s +:+ Py.nl.
Definition tabbed (fields : list string) : string := Py.join Py.tab fields +:+ Py.nl.

(** The number of block openings in [f]: the non-blank lines that start
    with [FOUND]. *)
Fixpoint count_found (f : list string) : Z :=
  match f with
  | [] => 0
  | line :: f' =>
      (if Py.truthy (Py.strip line) && Py.startswith line "FOUND" then 1 else 0)
      + count_found f'
  end.

(** A blank line: [line.strip()] is empty. *)
Definition blank (line : string) : bool := negb (Py.truthy (Py.strip line)).

(** The items of a returned dict. *)
Definition result_items {A} (r : res (gmap Z A)) : res (list (Z * A)) :=
  m ← r; Ok (map_to_list m).

(** ** Vocabulary of the statements *)

(** Every character of [s] satisfies [p]. *)
Fixpoint all_chars (p : ascii -> bool) (s : string) : bool :=
  match s with
  | EmptyString => true
  | String c s' => p c && all_chars p s'
  end.

(** The code returns: no exception is raised. *)
Definition is_ok {A} (r : res A) : Prop := exists a, r = Ok a.

(** Membership of row [i] in the bicluster, read positionally and read by
    the value of the first column. *)
Definition positional_member (rows : list string) (i : nat) : Prop :=
  In (Py.str_of_nat i) rows.

Definition value_member (values : list (option string)) (rows : list string)
    (i : nat) : Prop :=
  exists s, values !! i = Some (Some s) /\ In s rows.

(** [c] is the color vector of [n] rows for [member]: [c[i]] is 1 for a
    member and 0 otherwise. *)
Definition colors_by (member : nat -> Prop) (n : nat) (c : list Z) : Prop :=
  length c = n /\
  forall i, (i < n)%nat ->
    (c !! i = Some 1 /\ member i) \/ (c !! i = Some 0 /\ ~ member i).

(** The file of chart number [n] in the directory [dir]. *)
Definition chart_path (dir : string) (n : nat) : string :=
  dir +:+ "pc_" +:+ Py.str_of_nat n +:+ ".html".

(** What [pd.to_numeric] accepts in a cell after the missing-value marker
    has been replaced: anything but a string that is neither the marker,
    nor empty, nor a number. *)
Definition numeric_cell `{PyFloat} (v : value) : Prop :=
  match v with
  | VStr s => s = "?" \/ s = "" \/ is_Some (numeric_of_str s)
  | _ => True
  end.

(** One lift line of the annotation. *)
Definition lift_line `{PyFloat} (v : string) (x : pyfloat) : text :=
  [Lit ("    " +:+ v +:+ " = "); Round3 x; Lit "<br>"].

(** The figure that [plot_bicluster] builds in a mode, and the directory
    it writes to. *)
Definition figure_for `{PyFloat} (mode : string) (bic : bicluster) (df : frame)
    (main_var : list column_meta) : res figure :=
  if String.eqb mode "categories" then figure_categories bic df main_var
  else figure_coordinates bic df main_var.

Definition chart_dir (mode folder_name : string) : string :=
  (if String.eqb mode "categories" then "results/ParallelCategories ("
   else "results/ParallelCoordinates (") +:+ folder_name +:+ ")/".

(** The first [n] characters of [s] dropped. *)
Fixpoint string_drop (n : nat) (s : string) : string :=
  match n, s with
  | S k, String _ s' => string_drop k s'
  | _, _ => s
  end.

(** The cells of a comma-separated line, and of a line of the TXT
    format. *)
Definition cells (line : string) : list string :=
  Py.split (Py.rstrip Py.nl line) ",".

Definition bar_cells (line : string) : list string :=
  Py.split (Py.rstrip ("|" +:+ Py.nl) line) "|".

(** Every row of the frame is as wide as its column labels. *)
Definition rectangular {C} (df : DataFrame C) : Prop :=
  Forall (fun row => length row = length (df_columns df)) (df_rows df).

(** The [i]-th tab-separated field of a line. *)
Definition tab_field (i : nat) (line : string) : string :=
  nth i (Py.split line Py.tab) "".

(** A declaration line of an ARFF header, with its three fields; a line
    that the header loop passes over; the column name and the metadata
    entry that a declaration gives, the first declaration and the later
    ones. *)
Definition declaration (line : string) : Prop :=
  Py.startswith line "@ATTRIBUTE" = true /\ (3 <= length (Py.split line Py.tab))%nat.

Definition skipped (line : string) : Prop :=
  blank line = true \/
  (Py.startswith line "@ATTRIBUTE" = false /\ Py.startswith line "@DATA" = false).

Definition arff_name (line : string) : string := Py.strip (tab_field 1 line).

Definition arff_entry (first : bool) (line : string) : column_meta :=
  mk_meta (Py.join "" (Py.chars (Py.strip_chars strip_set (tab_field 1 line))))
    (if first then []
     else map (Py.strip_chars strip_set) (Py.split (tab_field 2 line) ",")).

Definition arff_entries (decls : list string) : list column_meta :=
  match decls with
  | [] => []
  | d :: ds => arff_entry true d :: map (arff_entry false) ds
  end.

(** The rows that the ARFF loader has built after [k] columns were
    kept. *)
Definition filled (data : list (list string)) (k : nat) : list (list string) :=
  match k with O => [] | S _ => map (take k) data end.

(** Invariants of the reader loop. *)

Section ReaderInvariants.
Context `{FM : PyFloat}.

Implicit Types st : reader_state.

(** Every key of the result set is a block index already reached. *)
Definition keys_bound st : Prop :=
  forall k, is_Some (rd_results st !! k) -> 0 <= k <= rd_i st.

(** [v] is committed under [k] for good: either the reader is past block
    [k], or it is at block [k], outside of it, with [v] still pending. *)
Definition committed (k : Z) (v : list bicluster) st : Prop :=
  rd_results st !! k = Some v /\
  (k < rd_i st \/ (k = rd_i st /\ rd_flag st = 0 /\ rd_bic_batch st = v)).

End ReaderInvariants.

(** ** Concrete datasets, records and files *)

(** The file system before anything is read or written. *)
Definition no_files `{PyFloat} : world := mk_world ∅ [] [] ∅.

(** A dataset with an identifier column of distinct values, and a record
    whose rows are written as positions. *)
Definition id_frame : frame :=
  mk_df ["id"; "x"] [[Some "a"; Some "1.5"]; [Some "b"; Some "2.5"]].

Definition position_bic : bicluster :=
  mk_bic (Some ["1"]) (Some ["x"]) (Some ["0"]) (Some (1, -2)) None.

(** A record that names the column [zz], which [id_frame] does not have. *)
Definition unknown_column_bic : bicluster :=
  mk_bic None (Some ["x"; "zz"]) (Some ["0"]) None None.

(** A dataset whose first column has two distinct values in three rows. *)
Definition group_frame : frame :=
  mk_df ["g"; "x"] [[Some "a"; Some "1"]; [Some "a"; Some "2"]; [Some "b"; Some "3"]].

(** Two plain declarations and one data row. *)
Definition plain_arff : list string :=
  [ tabbed ["@ATTRIBUTE"; "a"; "NUMERIC"];
    tabbed ["@ATTRIBUTE"; "b"; "NUMERIC"];
    ln "@DATA";
    ln "1,2" ].

(** The minimal file of two attributes, the second with the value set
    [{A,B}], and two data rows; with tabs between the fields of a
    declaration, as the loader splits them, and with spaces. *)
Definition minimal_arff : list string :=
  [ ln "@RELATION r";
    tabbed ["@ATTRIBUTE"; "attr1"; "NUMERIC"];
    tabbed ["@ATTRIBUTE"; "attr2"; "{A,B}"];
    ln "@DATA";
    ln "1,A";
    ln "2,B" ].

Definition minimal_arff_spaces : list string :=
  [ ln "@RELATION r";
    ln "@ATTRIBUTE attr1 NUMERIC";
    ln "@ATTRIBUTE attr2 {A,B}";
    ln "@DATA";
    ln "1,A";
    ln "2,B" ].

Definition arff_files : world :=
  mk_world (<["minimal.arff" := minimal_arff]> ∅) [] [] ∅.

(** A record line, a block of one record, and a record line whose
    p-value is no float. *)
Definition record_line : string := ln " X=[0,1] I=[1,2] Y=[x] pvalue=0.5".
Definition bad_record_line : string := ln " X=[0,1] pvalue=abc".

(** A dataset with a cell that is no number, and a record on its
    column. *)
Definition text_frame : frame :=
  mk_df ["id"; "x"] [[Some "a"; Some "abc"]; [Some "b"; Some "2.5"]].

Definition text_cell : value := VStr "abc".

Definition text_projection : DataFrame value :=
  mk_df ["x"] [[text_cell]; [VStr "2.5"]].

(** Metadata with two declared values, and records with two lifts and
    with one. *)
Definition class_meta : column_meta := mk_meta "class" ["A"; "B"].

Definition two_lifts : list (Z * Z) := [(15, -1); (25, -1)].
Definition one_lift : list (Z * Z) := [(15, -1)].

Definition lifts_bic : bicluster :=
  mk_bic (Some ["1"]) (Some ["x"]) (Some ["0"]) (Some (1, -2)) (Some two_lifts).

Definition short_lifts_bic : bicluster :=
  mk_bic (Some ["1"]) (Some ["x"]) (Some ["0"]) (Some (1, -2)) (Some one_lift).

(** A CSV file and a TXT file of two rows. *)
Definition small_csv : list string := [ln "a,b"; ln "1,2"; ln "3,4"].

Definition small_txt : list string :=
  [ln "title"; ln "cols: [a, b]"; ln "r1|1|2|"; ln "r2|3|4|"].

(** ** Properties of the string primitives *)

Lemma lstrip_by_empty p s : Py.lstrip_by p s = "" <-> all_chars p s = true.
Proof.
  induction s as [|c s IH]; simpl; [tauto|].
  destruct (p c); simpl; [exact IH|]. split; discriminate.
Qed.

Lemma all_chars_rev_app p s1 s2 :
  all_chars p (String.rev_app s1 s2) = all_chars p s1 && all_chars p s2.
Proof.
  revert s2. induction s1 as [|c s1 IH]; intros s2; simpl; [reflexivity|].
  rewrite IH. simpl. destruct (p c), (all_chars p s1); reflexivity.
Qed.

Lemma all_chars_rev p s : all_chars p (String.rev s) = all_chars p s.
Proof. unfold String.rev. rewrite all_chars_rev_app. simpl. apply andb_true_r. Qed.

Lemma all_chars_lstrip p s : all_chars p s = true -> all_chars p (Py.lstrip_by p s) = true.
Proof. intros H. apply lstrip_by_empty in H. rewrite H. reflexivity. Qed.

Lemma rev_app_empty s1 s2 : String.rev_app s1 s2 = "" -> s1 = "" /\ s2 = "".
Proof.
  revert s2. induction s1 as [|c s1 IH]; intros s2; simpl; [tauto|].
  intros H. apply IH in H as [_ H]. discriminate.
Qed.

Lemma rstrip_by_empty p s : Py.rstrip_by p s = "" <-> all_chars p s = true.
Proof.
  unfold Py.rstrip_by. split.
  - intros H. apply rev_app_empty in H as [H _].
    apply lstrip_by_empty in H. rewrite all_chars_rev in H. exact H.
  - intros H. rewrite <- all_chars_rev in H. apply lstrip_by_empty in H.
    rewrite H. reflexivity.
Qed.

(** A line is blank exactly when all its characters are white space. *)
Lemma blank_all_space line : blank line = all_chars Py.isspace line.
Proof.
  unfold blank, Py.strip.
  destruct (all_chars Py.isspace line) eqn:H.
  - pose proof (all_chars_lstrip _ _ H) as H'. apply rstrip_by_empty in H'.
    rewrite H'. reflexivity.
  - destruct (Py.rstrip_by _ _) eqn:E; [|reflexivity].
    apply rstrip_by_empty in E.
    assert (all_chars Py.isspace line = true); [|congruence].
    clear H. induction line as [|c l IH]; simpl in *; [reflexivity|].
    destruct (Py.isspace c) eqn:Hc; simpl in *; [auto|].
    rewrite Hc in E. discriminate.
Qed.

Lemma startswith_cons a p s :
  Py.startswith s (String a p) = true ->
  exists s', s = String a s' /\ Py.startswith s' p = true.
Proof.
  unfold Py.startswith. destruct s as [|b s]; [discriminate|].
  change (String.prefix (String a p) (String b s))
    with (if ascii_dec a b then String.prefix p s else false).
  destruct (ascii_dec a b) as [<-|]; [eauto | discriminate].
Qed.

(** A line that starts with [FOUND] is not blank. *)
Lemma found_not_blank line : Py.startswith line "FOUND" = true -> blank line = false.
Proof.
  rewrite blank_all_space. intros (s' & -> & _)%startswith_cons. reflexivity.
Qed.

(** ** Properties of the bicluster reader *)

Section ReaderFacts.
Context `{FM : PyFloat}.

Implicit Types (st : reader_state) (f : list string) (line : string).

Lemma reader_loop_app st f1 f2 :
  reader_loop st (f1 ++ f2) = st' ← reader_loop st f1; reader_loop st' f2.
Proof.
  revert st. induction f1 as [|line f1 IH]; intros st; simpl; [reflexivity|].
  destruct (reader_step st line); simpl; [apply IH | reflexivity].
Qed.

Lemma reader_step_blank st line :
  blank line = true ->
  reader_step st line =
    Ok (mk_reader
          (if 0 <=? rd_i st then <[rd_i st := rd_bic_batch st]> (rd_results st)
           else rd_results st)
          (rd_i st) 0 (rd_bic_batch st)).
Proof.
  unfold blank, reader_step. destruct (Py.truthy _); [discriminate | reflexivity].
Qed.

Lemma reader_step_found st line :
  Py.startswith line "FOUND" = true ->
  reader_step st line = Ok (mk_reader (rd_results st) (rd_i st + 1) 1 []).
Proof.
  intros H. pose proof (found_not_blank _ H) as Hb.
  unfold blank in Hb. unfold reader_step.
  destruct (Py.truthy _); [|discriminate]. rewrite H. reflexivity.
Qed.

(** A step on a line that is not blank leaves the result set as it is
    and does not lower the block index. *)
Lemma reader_step_not_blank st st' line :
  blank line = false -> reader_step st line = Ok st' ->
  rd_results st' = rd_results st /\ rd_i st <= rd_i st'.
Proof.
  unfold blank, reader_step. destruct (Py.truthy _); [intros _ | discriminate].
  destruct (Py.startswith line "FOUND").
  { intros [= <-]. simpl. split; [reflexivity | lia]. }
  destruct (_ && _).
  - destruct (parse_record line); simpl; [|discriminate].
    intros [= <-]. simpl. split; [reflexivity | lia].
  - intros [= <-]. split; [reflexivity | lia].
Qed.

Lemma reader_loop_not_blank f : forall st st',
  Forall (fun line => blank line = false) f ->
  reader_loop st f = Ok st' ->
  rd_results st' = rd_results st /\ rd_i st <= rd_i st'.
Proof.
  induction f as [|line f IH]; intros st st' Hf; simpl.
  - intros [= <-]. split; [reflexivity | lia].
  - inversion Hf as [|? ? Hl Hf']; subst.
    destruct (reader_step st line) as [st1|] eqn:E; simpl; [|discriminate].
    intros H. apply IH in H as [-> ?]; [|assumption].
    apply reader_step_not_blank in E as [-> ?]; [|assumption].
    split; [reflexivity | lia].
Qed.

(** The block index counts the [FOUND] lines read. *)
Lemma reader_step_i st st' line :
  reader_step st line = Ok st' -> rd_i st' = rd_i st + count_found [line].
Proof.
  unfold reader_step. simpl. destruct (Py.truthy _); simpl.
  - destruct (Py.startswith line "FOUND"); simpl.
    { intros [= <-]. simpl. lia. }
    destruct (_ && _).
    + destruct (parse_record line); simpl; [|discriminate].
      intros [= <-]. simpl. lia.
    + intros [= <-]. lia.
  - intros [= <-]. simpl. lia.
Qed.

Lemma count_found_app f1 f2 : count_found (f1 ++ f2) = count_found f1 + count_found f2.
Proof. induction f1 as [|line f1 IH]; simpl; [reflexivity | rewrite IH; lia]. Qed.

Lemma count_found_nonneg f : 0 <= count_found f.
Proof. induction f as [|line f IH]; simpl; [lia | destruct (_ && _); lia]. Qed.

Lemma reader_loop_i f : forall st st',
  reader_loop st f = Ok st' -> rd_i st' = rd_i st + count_found f.
Proof.
  induction f as [|line f IH]; intros st st'.
  - intros [= <-]. simpl. lia.
  - cbn [reader_loop].
    destruct (reader_step st line) as [st1|] eqn:E; simpl; [|discriminate].
    intros H. apply IH in H. apply reader_step_i in E.
    simpl in *. destruct (_ && _); lia.
Qed.

Lemma reader_step_keys st st' line :
  reader_step st line = Ok st' -> keys_bound st -> keys_bound st'.
Proof.
  unfold reader_step, keys_bound. destruct (Py.truthy _).
  - destruct (Py.startswith line "FOUND").
    { intros [= <-] H k Hk. simpl in *. apply H in Hk. lia. }
    destruct (_ && _).
    + destruct (parse_record line); simpl; [|discriminate].
      intros [= <-] H k Hk. simpl in *. auto.
    + intros [= <-]. auto.
  - intros [= <-] H k. simpl. destruct (Z.leb_spec 0 (rd_i st)); [|auto].
    destruct (decide (rd_i st = k)) as [<-|Hne]; [lia|].
    rewrite lookup_insert_ne by assumption. auto.
Qed.

Lemma reader_loop_keys f : forall st st',
  reader_loop st f = Ok st' -> keys_bound st -> keys_bound st'.
Proof.
  induction f as [|line f IH]; intros st st'; simpl.
  - intros [= <-]. auto.
  - destruct (reader_step st line) as [st1|] eqn:E; simpl; [|discriminate].
    eauto using reader_step_keys.
Qed.

Lemma keys_bound_init : keys_bound reader_init.
Proof. intros k [v Hv]. simpl in Hv. rewrite lookup_empty in Hv. discriminate. Qed.

Lemma reader_step_committed k v st st' line :
  reader_step st line = Ok st' -> committed k v st -> committed k v st'.
Proof.
  unfold reader_step, committed. destruct (Py.truthy _).
  - destruct (Py.startswith line "FOUND").
    { intros [= <-] [H1 H2]. simpl. split; [assumption | lia]. }
    destruct (_ && _) eqn:Hc.
    + destruct (parse_record line); simpl; [|discriminate].
      intros [= <-] [H1 [H2|(-> & H3 & H4)]]; simpl; [tauto|].
      apply andb_true_iff in Hc as [_ Hc]. rewrite H3 in Hc. discriminate.
    + intros [= <-]. tauto.
  - intros [= <-] [H1 H2]. simpl.
    destruct (Z.leb_spec 0 (rd_i st)); [|tauto].
    destruct H2 as [H2|(-> & H3 & H4)].
    + rewrite lookup_insert_ne by lia. tauto.
    + rewrite lookup_insert_eq. subst v. tauto.
Qed.

Lemma reader_loop_committed k v f : forall st st',
  reader_loop st f = Ok st' -> committed k v st -> committed k v st'.
Proof.
  induction f as [|line f IH]; intros st st'; simpl.
  - intros [= <-]. auto.
  - destruct (reader_step st line) as [st1|] eqn:E; simpl; [|discriminate].
    eauto using reader_step_committed.
Qed.

(** The reader returns when every line parses as a record. *)
Lemma reader_loop_total f : forall st,
  Forall (fun line => is_ok (parse_record line)) f ->
  is_ok (reader_loop st f).
Proof.
  induction f as [|line f IH]; intros st Hf; simpl; [eexists; reflexivity|].
  inversion Hf as [|? ? [b Hb] Hf']; subst.
  assert (is_ok (reader_step st line)) as [st1 ->].
  { unfold reader_step. rewrite Hb. simpl.
    repeat match goal with |- context [if ?c then _ else _] => destruct c end;
      eexists; reflexivity. }
  simpl. auto.
Qed.

End ReaderFacts.

Section ReaderClaims.
Context `{FM : PyFloat}.

Lemma lifts_token lt :
  Py.startswith lt "Lifts=" = true ->
  Py.startswith lt "I=" = false /\ Py.startswith lt "Y=" = false /\
  Py.startswith lt "X=" = false /\ Py.startswith lt "pvalue=" = false.
Proof. intros (s' & -> & _)%startswith_cons. repeat split; reflexivity. Qed.

(** In a block, a line that is neither blank, nor a record line, nor a
    [FOUND] line is passed over. *)
Lemma reader_loop_noise noise : forall st,
  Forall (fun line => blank line = false /\ Py.startswith line " " = false
                      /\ Py.startswith line "FOUND" = false) noise ->
  reader_loop st noise = Ok st.
Proof.
  induction noise as [|line noise IH]; intros st Hn; [reflexivity|].
  inversion Hn as [|? ? (Hb & Hs & Hf) Hn']; subst. cbn [reader_loop].
  unfold reader_step at 1. unfold blank in Hb.
  destruct (Py.truthy _); [|discriminate]. rewrite Hf, Hs.
  cbn [andb mbind res_bind]. apply IH. exact Hn'.
Qed.

(** C4, as amended.  A [FOUND] block with no record line before the
    blank line that closes it is committed: whatever lines that are not
    record lines stand in between, the result set maps its block index,
    the number of [FOUND] lines before it, to the empty sequence of
    records, whatever follows in the file; and the reader returns when
    the lines of the file parse as records. *)
Theorem empty_block_committed (pre noise rest : list string) (found closing : string) :
  Py.startswith found "FOUND" = true ->
  Forall (fun line => blank line = false /\ Py.startswith line " " = false
                      /\ Py.startswith line "FOUND" = false) noise ->
  blank closing = true ->
  (forall r, load_biclusters_lines (pre ++ found :: noise ++ closing :: rest) = Ok r ->
             r !! count_found pre = Some [])
  /\ (Forall (fun line => is_ok (parse_record line)) (pre ++ rest) ->
      is_ok (load_biclusters_lines (pre ++ found :: noise ++ closing :: rest))).
Proof.
  intros Hfound Hnoise Hblank. unfold load_biclusters_lines.
  assert (forall st1, reader_loop st1 (found :: noise ++ closing :: rest) =
            reader_loop (mk_reader
              (if 0 <=? rd_i st1 + 1 then <[rd_i st1 + 1 := []]> (rd_results st1)
               else rd_results st1) (rd_i st1 + 1) 0 []) rest) as Hblock.
  { intros st1. cbn [reader_loop]. rewrite (reader_step_found _ _ Hfound).
    cbn [mbind res_bind]. rewrite reader_loop_app, (reader_loop_noise _ _ Hnoise).
    cbn [mbind res_bind reader_loop]. rewrite (reader_step_blank _ _ Hblank).
    reflexivity. }
  split.
  - intros r. rewrite reader_loop_app.
    destruct (reader_loop reader_init pre) as [st1|] eqn:E1;
      cbn [mbind res_bind]; [|discriminate].
    rewrite Hblock.
    pose proof (reader_loop_i _ _ _ E1) as Hi. simpl in Hi.
    pose proof (count_found_nonneg pre) as Hn.
    destruct (Z.leb_spec 0 (rd_i st1 + 1)); [|lia].
    destruct (reader_loop _ rest) as [st3|] eqn:E3; simpl; [|discriminate].
    intros [= <-].
    eapply reader_loop_committed in E3 as [Hc _]; [|split; simpl].
    + replace (count_found pre) with (rd_i st1 + 1) by lia. exact Hc.
    + apply lookup_insert_eq.
    + right. auto.
  - intros [Hpre Hrest]%Forall_app. rewrite reader_loop_app.
    destruct (reader_loop_total pre reader_init Hpre) as [st1 ->].
    cbn [mbind res_bind]. rewrite Hblock.
    destruct (reader_loop_total rest
                (mk_reader
                   (if 0 <=? rd_i st1 + 1
                    then <[rd_i st1 + 1 := []]> (rd_results st1)
                    else rd_results st1) (rd_i st1 + 1) 0 []) Hrest) as [st3 ->].
    eexists. reflexivity.
Qed.

(** C5.  In a file that ends inside a block, a [FOUND] line followed by
    no blank line up to the end of the input, that block is not
    committed: the result set has no key from its block index on, and it
    is empty when this is the first block.  The reader returns when the
    lines of the file parse as records. *)
Theorem unclosed_block_not_committed (pre tail : list string) (found : string) :
  Py.startswith found "FOUND" = true ->
  Forall (fun line => blank line = false) tail ->
  (forall r, load_biclusters_lines (pre ++ found :: tail) = Ok r ->
             (forall k, count_found pre <= k -> r !! k = None)
             /\ (count_found pre = 0 -> r = ∅))
  /\ (Forall (fun line => is_ok (parse_record line)) (pre ++ tail) ->
      is_ok (load_biclusters_lines (pre ++ found :: tail))).
Proof.
  intros Hfound Htail. unfold load_biclusters_lines. split.
  - intros r. rewrite reader_loop_app.
    destruct (reader_loop reader_init pre) as [st1|] eqn:E1; simpl; [|discriminate].
    rewrite (reader_step_found _ _ Hfound). simpl.
    destruct (reader_loop _ tail) as [st3|] eqn:E3; simpl; [|discriminate].
    intros [= <-].
    apply reader_loop_not_blank in E3 as [-> _]; [|assumption]. simpl.
    pose proof (reader_loop_i _ _ _ E1) as Hi. simpl in Hi.
    pose proof (reader_loop_keys _ _ _ E1 keys_bound_init) as Hk.
    assert (forall k, count_found pre <= k -> rd_results st1 !! k = None) as Hnone.
    { intros k Hle. destruct (rd_results st1 !! k) eqn:El; [|reflexivity].
      assert (0 <= k <= rd_i st1) by (apply Hk; rewrite El; eauto). lia. }
    split; [exact Hnone|].
    intros H0. apply map_empty. intros k.
    destruct (rd_results st1 !! k) eqn:El; [|reflexivity].
    assert (0 <= k <= rd_i st1) by (apply Hk; rewrite El; eauto). lia.
  - intros [Hpre Hrest]%Forall_app. rewrite reader_loop_app.
    destruct (reader_loop_total pre reader_init Hpre) as [st1 ->]. simpl.
    rewrite (reader_step_found _ _ Hfound). simpl.
    destruct (reader_loop_total tail
                (mk_reader (rd_results st1) (rd_i st1 + 1) 1 []) Hrest) as [st3 ->].
    eexists. reflexivity.
Qed.

(** C9, as amended.  At a token that starts with [Lifts=] the record gets
    its lifts from the piece of the whole line after the first [Lifts=]
    (up to a second one), stripped of a leading bracket and of trailing
    brackets and newlines, split on commas and parsed piece by piece as
    floats; the other fields stay as they are and the scan ends there: the
    tokens after it are not matched against the key prefixes.  Their text
    still is part of the line that the lifts are read from. *)
Theorem lifts_ends_scan (line lt : string) (pre post : list string)
    (current_bic : bicluster) :
  Py.startswith lt "Lifts=" = true ->
  scan_tokens line (lt :: post) current_bic =
    (lifts ← getitem (Py.split line "Lifts=") 1%nat;
     fs ← rmap float_ (Py.split (Py.rstrip ("]" +:+ Py.nl) (Py.lstrip "[" lifts)) ",");
     Ok (mk_bic (bic_pattern current_bic) (bic_cols current_bic)
           (bic_lines current_bic) (bic_pvalue current_bic) (Some fs)))
  /\ scan_tokens line (pre ++ lt :: post) current_bic =
     scan_tokens line (pre ++ [lt]) current_bic.
Proof.
  intros Hlt. destruct (lifts_token _ Hlt) as (HI & HY & HX & Hp).
  assert (forall post' b, scan_tokens line (lt :: post') b =
    (lifts ← getitem (Py.split line "Lifts=") 1%nat;
     fs ← rmap float_ (Py.split (Py.rstrip ("]" +:+ Py.nl) (Py.lstrip "[" lifts)) ",");
     Ok (mk_bic (bic_pattern b) (bic_cols b) (bic_lines b) (bic_pvalue b) (Some fs))))
    as Hhead.
  { intros post' b. cbn [scan_tokens]. rewrite HI, HY, HX, Hp, Hlt. reflexivity. }
  split; [apply Hhead|].
  revert current_bic. induction pre as [|elem pre IH]; intros b.
  - cbn [app]. rewrite !Hhead. reflexivity.
  - cbn [app scan_tokens].
    repeat match goal with
           | |- context [if ?c then _ else _] => destruct c
           | |- (?r ≫= _) = (?r ≫= _) => destruct r; simpl; [|reflexivity]
           end; auto.
Qed.

End ReaderClaims.

(** C4, as stated, fails: the block opened and closed at once is
    committed under its index 0. *)
Lemma empty_block_counterexample :
  result_items (load_biclusters_lines [ln "FOUND"; ln ""]) = Ok [(0, [])].
Proof. vm_compute. reflexivity. Qed.

Lemma empty_block_committed_witness :
  Py.startswith (ln "FOUND") "FOUND" = true /\
  Forall (fun line => blank line = false /\ Py.startswith line " " = false
                      /\ Py.startswith line "FOUND" = false)
    [ln "no record here"] /\
  blank (ln "") = true /\
  ((forall r, load_biclusters_lines
                ([record_line] ++ ln "FOUND" :: [ln "no record here"] ++ ln "" :: [])
              = Ok r ->
              r !! count_found [record_line] = Some [])
   /\ (Forall (fun line => is_ok (parse_record line)) ([record_line] ++ []) ->
       is_ok (load_biclusters_lines
                ([record_line] ++ ln "FOUND" :: [ln "no record here"] ++ ln "" :: [])))).
Proof.
  assert (Forall (fun line => blank line = false /\ Py.startswith line " " = false
                              /\ Py.startswith line "FOUND" = false)
            [ln "no record here"]) as Hn by (repeat constructor).
  split; [reflexivity|]. split; [exact Hn|]. split; [reflexivity|].
  apply (empty_block_committed [record_line] [ln "no record here"] []
           (ln "FOUND") (ln "") eq_refl Hn eq_refl).
Defined.

Lemma unclosed_block_not_committed_witness :
  Py.startswith (ln "FOUND") "FOUND" = true /\
  Forall (fun line => blank line = false) [ln " I=[1,2] X=[0,1]"] /\
  ((forall r, load_biclusters_lines ([] ++ ln "FOUND" :: [ln " I=[1,2] X=[0,1]"]) = Ok r ->
              (forall k, count_found [] <= k -> r !! k = None)
              /\ (count_found [] = 0 -> r = ∅))
   /\ (Forall (fun line => is_ok (parse_record line)) ([] ++ [ln " I=[1,2] X=[0,1]"]) ->
       is_ok (load_biclusters_lines ([] ++ ln "FOUND" :: [ln " I=[1,2] X=[0,1]"])))).
Proof.
  split; [reflexivity|]. split; [repeat constructor|].
  apply (unclosed_block_not_committed [] [ln " I=[1,2] X=[0,1]"] (ln "FOUND"));
    [reflexivity | repeat constructor].
Defined.

(** C9, as stated, fails: two lines with the same tokens up to and
    including the [Lifts=] token, and a different token after it, give
    records with different lifts; and a [pvalue=] token after the lifts
    turns the record into a [ValueError]. *)
Lemma lifts_suffix_counterexample :
  Py.split (ln " Lifts=[1.5, 2.5]") " " = [""; "Lifts=[1.5,"; ln "2.5]"] /\
  Py.split (ln " Lifts=[1.5, 3.5]") " " = [""; "Lifts=[1.5,"; ln "3.5]"] /\
  parse_record (ln " Lifts=[1.5, 2.5]")
    = Ok (mk_bic None None None None (Some [(15, -1); (25, -1)])) /\
  parse_record (ln " Lifts=[1.5, 3.5]")
    = Ok (mk_bic None None None None (Some [(15, -1); (35, -1)])) /\
  parse_record (ln " Lifts=[1.5]")
    = Ok (mk_bic None None None None (Some [(15, -1)])) /\
  parse_record (ln " Lifts=[1.5] pvalue=0.5") = Raise ValueError.
Proof. repeat split; vm_compute; reflexivity. Qed.

Lemma lifts_ends_scan_witness :
  Py.startswith "Lifts=[1.5," "Lifts=" = true /\
  (scan_tokens (ln " I=[1] Lifts=[1.5, 2.5]") ("Lifts=[1.5," :: [ln "2.5]"]) empty_bic =
    (lifts ← getitem (Py.split (ln " I=[1] Lifts=[1.5, 2.5]") "Lifts=") 1%nat;
     fs ← rmap float_ (Py.split (Py.rstrip ("]" +:+ Py.nl) (Py.lstrip "[" lifts)) ",");
     Ok (mk_bic (bic_pattern empty_bic) (bic_cols empty_bic)
           (bic_lines empty_bic) (bic_pvalue empty_bic) (Some fs)))
  /\ scan_tokens (ln " I=[1] Lifts=[1.5, 2.5]")
       ([""; "I=[1]"] ++ "Lifts=[1.5," :: [ln "2.5]"]) empty_bic =
     scan_tokens (ln " I=[1] Lifts=[1.5, 2.5]")
       ([""; "I=[1]"] ++ ["Lifts=[1.5,"]) empty_bic).
Proof.
  split; [reflexivity|].
  apply (lifts_ends_scan (ln " I=[1] Lifts=[1.5, 2.5]") "Lifts=[1.5,"
           [""; "I=[1]"] [ln "2.5]"] empty_bic).
  reflexivity.
Defined.

(** ** Properties of the renderers *)

Lemma rmap_ok {A B} (g : A -> B) (f : A -> res B) (l : list A) :
  (forall x, f x = Ok (g x)) -> rmap f l = Ok (map g l).
Proof.
  intros Hf. induction l as [|x l IH]; simpl; [reflexivity|].
  rewrite Hf, IH. reflexivity.
Qed.

Lemma rmap_raise {A B} (f : A -> res B) (l : list A) e :
  rmap f l = Raise e -> exists x, f x = Raise e.
Proof.
  induction l as [|x l IH]; simpl; [discriminate|].
  destruct (f x) eqn:E; simpl.
  - destruct (rmap f l); simpl; [discriminate|]. intros [= <-]. auto.
  - intros [= <-]. eauto.
Qed.

Lemma str_in_In x l : Py.str_in x l = true <-> In x l.
Proof.
  unfold Py.str_in. rewrite existsb_exists. split.
  - intros (y & Hy & ->%String.eqb_eq). exact Hy.
  - intros H. exists x. split; [exact H | apply String.eqb_refl].
Qed.

Section RendererFacts.
Context `{FM : PyFloat}.

Implicit Types (bic : bicluster) (df : frame).

Lemma first_column_length df values :
  first_column df = Ok values -> length values = length (df_rows df).
Proof.
  unfold first_column. destruct (df_columns df); [discriminate|].
  intros [= <-]. apply length_map.
Qed.

Lemma color_positional_ok bic df rows :
  bic_lines bic = Some rows ->
  color_positional bic df =
    Ok (map (fun x => if Py.str_in (Py.str_of_nat x) rows then 1 else 0)
          (seq 0 (length (df_rows df)))).
Proof.
  intros H. unfold color_positional. apply rmap_ok. intros x. rewrite H. reflexivity.
Qed.

Lemma color_by_value_ok bic df values rows :
  first_column df = Ok values -> bic_lines bic = Some rows ->
  color_by_value bic df = Ok (map (fun x => if cell_in x rows then 1 else 0) values).
Proof.
  intros Hv H. unfold color_by_value. rewrite Hv. simpl.
  apply rmap_ok. intros x. rewrite H. reflexivity.
Qed.

Lemma colors_by_positional rows n :
  colors_by (positional_member rows) n
    (map (fun x => if Py.str_in (Py.str_of_nat x) rows then 1 else 0) (seq 0 n)).
Proof.
  split; [rewrite length_map, length_seq; reflexivity|].
  intros i Hi. rewrite list_lookup_fmap, lookup_seq_lt by assumption. simpl.
  unfold positional_member. rewrite <- str_in_In.
  destruct (Py.str_in _ rows); [left | right]; split; auto; discriminate.
Qed.

Lemma colors_by_value values rows :
  colors_by (value_member values rows) (length values)
    (map (fun x => if cell_in x rows then 1 else 0) values).
Proof.
  split; [apply length_map|].
  intros i Hi. rewrite list_lookup_fmap. unfold value_member.
  destruct (lookup_lt_is_Some_2 values i Hi) as [x Hx]. rewrite Hx. simpl.
  destruct x as [s|]; simpl.
  - destruct (Py.str_in s rows) eqn:E.
    + left. split; [reflexivity|]. exists s. split; [reflexivity|].
      apply str_in_In. exact E.
    + right. split; [reflexivity|]. intros (s' & [= <-] & Hin).
      apply str_in_In in Hin. congruence.
  - right. split; [reflexivity|]. intros (s' & [=] & _).
Qed.

(** Whatever the color vector raises is a lookup error. *)
Lemma color_positional_raise bic df e :
  color_positional bic df = Raise e -> is_LookupError e = true.
Proof.
  intros (x & Hx)%rmap_raise. destruct (bic_lines bic); simpl in Hx; [discriminate|].
  injection Hx as <-. reflexivity.
Qed.

Lemma color_by_value_raise bic df e :
  color_by_value bic df = Raise e -> is_LookupError e = true.
Proof.
  unfold color_by_value, first_column. destruct (df_columns df); simpl.
  { intros [= <-]. reflexivity. }
  intros (x & Hx)%rmap_raise. destruct (bic_lines bic); simpl in Hx; [discriminate|].
  injection Hx as <-. reflexivity.
Qed.

Lemma color_categories_raise bic df e :
  color_categories bic df = Raise e -> is_LookupError e = true.
Proof.
  unfold color_categories. destruct (first_column df) eqn:E; simpl.
  - destruct (_ <? _)%nat; eauto using color_positional_raise, color_by_value_raise.
  - unfold first_column in E. destruct (df_columns df); [|discriminate].
    injection E as <-. intros [= <-]. reflexivity.
Qed.

Lemma color_coordinates_raise bic df e :
  color_coordinates bic df = Raise e -> is_LookupError e = true.
Proof.
  unfold color_coordinates. destruct (first_column df) eqn:E; simpl.
  - destruct (_ <? _)%nat; eauto using color_positional_raise, color_by_value_raise.
  - unfold first_column in E. destruct (df_columns df); [|discriminate].
    injection E as <-. intros [= <-]. reflexivity.
Qed.

Lemma positions_absent name columns i :
  ~ In name columns -> positions name columns i = [].
Proof.
  revert i. induction columns as [|c columns IH]; intros i Hn; simpl; [reflexivity|].
  destruct (String.eqb_spec c name) as [->|_].
  - exfalso. apply Hn. left. reflexivity.
  - apply IH. intros H. apply Hn. right. exact H.
Qed.

Lemma select_positions_absent names columns c :
  In c names -> ~ In c columns -> select_positions names columns = Raise KeyError.
Proof.
  intros Hin Hn. induction names as [|name names IH]; [destruct Hin|].
  simpl. destruct (positions name columns 0) eqn:E; [reflexivity|].
  destruct Hin as [->|Hin].
  - rewrite positions_absent in E by assumption. discriminate.
  - rewrite IH by assumption. reflexivity.
Qed.

Lemma project_absent bic df names c :
  bic_cols bic = Some names -> In c names -> ~ In c (df_columns df) ->
  project bic df = Raise KeyError.
Proof.
  intros H Hin Hn. unfold project. rewrite H. simpl.
  rewrite (select_positions_absent _ _ _ Hin Hn). reflexivity.
Qed.

(** With the empty metadata list and a p-value in the record, the numeric
    renderer never completes. *)
Lemma coordinates_empty_meta_raises bic df p :
  bic_pvalue bic = Some p -> exists e, figure_coordinates bic df [] = Raise e.
Proof.
  intros Hp. unfold figure_coordinates.
  destruct (chart_coordinates bic df); simpl; [|eauto].
  unfold annotate_coordinates. rewrite Hp. simpl. eauto.
Qed.

(** With the empty metadata list the categorical renderer annotates the
    p-value alone. *)
Lemma categories_empty_meta_annotation bic p :
  bic_pvalue bic = Some p ->
  annotate_categories bic (first_meta []) = Ok [[Lit "P-value = "; Fmt3e p]].
Proof. intros Hp. unfold annotate_categories. rewrite Hp. reflexivity. Qed.

End RendererFacts.

Section RendererClaims.
Context `{FM : PyFloat}.

Implicit Types (bic : bicluster) (df : frame).

(** C2.  With [n] the row count and [d] the number of distinct values of
    the first column, the categorical renderer colors by position
    ([color[i] = 1] iff [str(i)] is in the record's rows) when [d] is
    below half of [n], and by the value of the first column otherwise;
    the numeric renderer does the same with [d < n] as the test. *)
Theorem color_rules bic df (values : list (option string)) (rows : list string) :
  first_column df = Ok values ->
  bic_lines bic = Some rows ->
  let n := length (df_rows df) in
  let d := distinct values in
  exists cat num,
    color_categories bic df = Ok cat /\ color_coordinates bic df = Ok num /\
    ((2 * d < n)%nat -> colors_by (positional_member rows) n cat) /\
    ((n <= 2 * d)%nat -> colors_by (value_member values rows) n cat) /\
    ((d < n)%nat -> colors_by (positional_member rows) n num) /\
    ((n <= d)%nat -> colors_by (value_member values rows) n num).
Proof.
  intros Hv Hrows n d.
  pose proof (first_column_length _ _ Hv) as Hlen.
  pose proof (color_positional_ok _ df _ Hrows) as Hpos.
  pose proof (color_by_value_ok _ _ _ _ Hv Hrows) as Hval.
  pose proof (colors_by_positional rows n) as Cpos.
  pose proof (colors_by_value values rows) as Cval. rewrite Hlen in Cval.
  unfold color_categories, color_coordinates. rewrite Hv.
  unfold mbind, res_bind. rewrite Hlen, Hpos, Hval. fold n d. fold n in Cval.
  destruct (Nat.ltb_spec (2 * d) n), (Nat.ltb_spec d n);
    eexists; eexists; (split; [reflexivity|]); (split; [reflexivity|]);
    (split; [intros; first [lia | assumption]|]);
    (split; [intros; first [lia | assumption]|]);
    (split; intros; first [lia | assumption]).
Qed.

(** C1, as amended.  On a dataset whose first column has only distinct
    values both renderers color by the value of the first column.  When
    the distinct values are at least half and fewer than all, the numeric
    renderer colors by position and the categorical one by value, so their
    color vectors differ whenever the two readings do. *)
Theorem color_threshold_gap bic df (values : list (option string)) :
  first_column df = Ok values ->
  (distinct values = length values ->
     color_coordinates bic df = color_by_value bic df /\
     color_categories bic df = color_by_value bic df)
  /\ ((length values <= 2 * distinct values)%nat ->
      (distinct values < length values)%nat ->
      color_coordinates bic df = color_positional bic df /\
      color_categories bic df = color_by_value bic df /\
      (color_positional bic df <> color_by_value bic df ->
       color_coordinates bic df <> color_categories bic df)).
Proof.
  intros Hv. unfold color_categories, color_coordinates. rewrite Hv.
  unfold mbind, res_bind. split.
  - intros Hd. rewrite Hd.
    destruct (Nat.ltb_spec (2 * length values) (length values)); [lia|].
    rewrite Nat.ltb_irrefl. split; reflexivity.
  - intros H1 H2.
    destruct (Nat.ltb_spec (2 * distinct values) (length values)); [lia|].
    destruct (Nat.ltb_spec (distinct values) (length values)); [|lia].
    repeat split; auto.
Qed.

(** C8.  When the record names a column that the dataset does not have,
    both renderers raise a lookup error and leave the visualizer and the
    file system as they were: no chart is written and the counter keeps
    its value. *)
Theorem unknown_column_fails_before_write (self : visualizer) (w : world)
    bic df (main_var : list column_meta) (folder_name : string)
    (names : list string) (c : string) :
  bic_cols bic = Some names ->
  In c names ->
  ~ In c (df_columns df) ->
  exists e1 e2,
    is_LookupError e1 = true /\ is_LookupError e2 = true /\
    plot_parallel_categories self w bic df main_var folder_name
      = (Raise e1, (self, w)) /\
    plot_parallel_coordinates self w bic df main_var folder_name
      = (Raise e2, (self, w)).
Proof.
  intros Hc Hin Hn. pose proof (project_absent _ _ _ _ Hc Hin Hn) as Hp.
  unfold plot_parallel_categories, plot_parallel_coordinates,
    figure_categories, figure_coordinates, chart_categories, chart_coordinates.
  rewrite Hp.
  destruct (color_categories bic df) as [c1|e1] eqn:E1;
    destruct (color_coordinates bic df) as [c2|e2] eqn:E2; simpl.
  - exists KeyError, KeyError. auto.
  - exists KeyError, e2. apply color_coordinates_raise in E2. auto.
  - exists e1, KeyError. apply color_categories_raise in E1. auto.
  - exists e1, e2. apply color_categories_raise in E1.
    apply color_coordinates_raise in E2. auto.
Qed.

End RendererClaims.

(** C1, as stated, fails: all values of the first column are distinct, and
    the categorical renderer colors by value, [0; 0], where positional
    indexing gives [1; 0]. *)
Lemma distinct_ids_counterexample :
  first_column id_frame = Ok [Some "a"; Some "b"] /\
  distinct [Some "a"; Some "b"] = 2%nat /\
  color_coordinates position_bic id_frame = Ok [0; 0] /\
  color_categories position_bic id_frame = Ok [0; 0] /\
  color_by_value position_bic id_frame = Ok [0; 0] /\
  color_positional position_bic id_frame = Ok [1; 0].
Proof. repeat split; vm_compute; reflexivity. Qed.

Lemma color_threshold_gap_witness :
  first_column group_frame = Ok [Some "a"; Some "a"; Some "b"] /\
  ((distinct [Some "a"; Some "a"; Some "b"] = length [Some "a"; Some "a"; Some "b"] ->
     color_coordinates position_bic group_frame = color_by_value position_bic group_frame /\
     color_categories position_bic group_frame = color_by_value position_bic group_frame)
  /\ ((length [Some "a"; Some "a"; Some "b"] <= 2 * distinct [Some "a"; Some "a"; Some "b"])%nat ->
      (distinct [Some "a"; Some "a"; Some "b"] < length [Some "a"; Some "a"; Some "b"])%nat ->
      color_coordinates position_bic group_frame = color_positional position_bic group_frame /\
      color_categories position_bic group_frame = color_by_value position_bic group_frame /\
      (color_positional position_bic group_frame <> color_by_value position_bic group_frame ->
       color_coordinates position_bic group_frame <> color_categories position_bic group_frame))).
Proof.
  split; [reflexivity|].
  apply (color_threshold_gap position_bic group_frame). reflexivity.
Defined.

Lemma color_rules_witness :
  first_column group_frame = Ok [Some "a"; Some "a"; Some "b"] /\
  bic_lines position_bic = Some ["0"] /\
  exists cat num,
    color_categories position_bic group_frame = Ok cat /\
    color_coordinates position_bic group_frame = Ok num /\
    ((2 * distinct [Some "a"; Some "a"; Some "b"] < 3)%nat ->
       colors_by (positional_member ["0"]) 3 cat) /\
    ((3 <= 2 * distinct [Some "a"; Some "a"; Some "b"])%nat ->
       colors_by (value_member [Some "a"; Some "a"; Some "b"] ["0"]) 3 cat) /\
    ((distinct [Some "a"; Some "a"; Some "b"] < 3)%nat ->
       colors_by (positional_member ["0"]) 3 num) /\
    ((3 <= distinct [Some "a"; Some "a"; Some "b"])%nat ->
       colors_by (value_member [Some "a"; Some "a"; Some "b"] ["0"]) 3 num).
Proof.
  split; [reflexivity|]. split; [reflexivity|].
  apply (color_rules position_bic group_frame [Some "a"; Some "a"; Some "b"] ["0"]);
    reflexivity.
Defined.

Lemma unknown_column_fails_before_write_witness :
  bic_cols unknown_column_bic = Some ["x"; "zz"] /\
  In "zz" ["x"; "zz"] /\
  ~ In "zz" (df_columns id_frame) /\
  exists e1 e2,
    is_LookupError e1 = true /\ is_LookupError e2 = true /\
    plot_parallel_categories init no_files
      unknown_column_bic id_frame [] "run"
      = (Raise e1, (init, no_files)) /\
    plot_parallel_coordinates init no_files
      unknown_column_bic id_frame [] "run"
      = (Raise e2, (init, no_files)).
Proof.
  assert (~ In "zz" (df_columns id_frame)) as Hn.
  { simpl. intros [H|[H|[]]]; discriminate. }
  split; [reflexivity|]. split; [simpl; auto|]. split; [exact Hn|].
  apply (unknown_column_fails_before_write init no_files
           unknown_column_bic
           id_frame [] "run" ["x"; "zz"] "zz");
    [reflexivity | simpl; auto | exact Hn].
Defined.

(** C3, on the numeric renderer, fails on the code: with the empty
    metadata list of a CSV or TXT dataset and a record that carries a
    p-value, [plot_parallel_coordinates] raises a [TypeError] at
    [main_var['vals']] and writes nothing, where [plot_parallel_categories],
    which tests [main_var] first, completes with the p-value annotation. *)
Theorem pvalue_annotation_empty_meta :
  plot_parallel_coordinates init no_files position_bic id_frame [] "run"
    = (Raise TypeError, (init, no_files)) /\
  let done := plot_parallel_categories init no_files position_bic id_frame [] "run" in
  fst done = Ok () /\
  counter (fst (snd done)) = 1%nat /\
  fig_annotations <$> (w_html (snd (snd done)) !! "results/ParallelCategories (run)/pc_0.html")
    = Some [[Lit "P-value = "; Fmt3e (1, -2)]].
Proof. repeat split; vm_compute; reflexivity. Qed.

(** ** Properties of the loaders *)

Lemma length_rev_app s1 s2 :
  String.length (String.rev_app s1 s2) = (String.length s1 + String.length s2)%nat.
Proof.
  revert s2. induction s1 as [|c s1 IH]; intros s2; simpl; [reflexivity|].
  rewrite IH. simpl. lia.
Qed.

(** The first piece of a split holds at least what was read before. *)
Lemma split_go_head_length sep s : forall cur,
  (String.length cur <= String.length (default "" (head (Py.split_go sep 0 cur s))))%nat.
Proof.
  induction s as [|c s IH]; intros cur; cbn [Py.split_go].
  - simpl. unfold String.rev. rewrite length_rev_app. simpl. lia.
  - destruct (String.prefix sep (String c s)).
    + simpl. unfold String.rev. rewrite length_rev_app. simpl. lia.
    + specialize (IH (String c cur)). simpl in IH. lia.
Qed.

(** The test [len(line.split("{")[0]) > 1] holds on every line that starts
    with [@ATTRIBUTE], with or without a brace. *)
Lemma attribute_guard line :
  Py.startswith line "@ATTRIBUTE" = true ->
  (1 <? String.length (default "" (head (Py.split line "{"))))%nat = true.
Proof.
  intros (s1 & -> & (s2 & -> & _)%startswith_cons)%startswith_cons.
  apply Nat.ltb_lt.
  change (Py.split (String "@" (String "A" s2)) "{")
    with (Py.split_go "{" 0 "A@" s2).
  pose proof (split_go_head_length "{" s2 "A@") as H. simpl in H. lia.
Qed.

(** Every attribute declaration after the first gets the pieces of its
    third tab-separated field as declared values, at least one piece,
    whether or not the line has a brace. *)
Lemma later_attribute_vals (st : arff_state) (line field0 name decl : string)
    (fields : list string) :
  blank line = false ->
  af_flag st <> 1 ->
  1 <= af_counter st ->
  Py.startswith line "@ATTRIBUTE" = true ->
  Py.split line Py.tab = field0 :: name :: decl :: fields ->
  arff_step st line =
    Ok (mk_arff (af_flag st) (af_data st) (af_cols st ++ [Py.strip name])
          (af_counter st + 1)
          (af_main_var st ++
             [mk_meta (Py.join "" (Py.chars (Py.strip_chars strip_set name)))
                (map (Py.strip_chars strip_set) (Py.split decl ","))])).
Proof.
  intros Hb Hf Hc Ha Hs. unfold arff_step, blank in *.
  destruct (Py.truthy _); [|discriminate].
  destruct (Z.eqb_spec (af_flag st) 1); [contradiction|].
  rewrite Ha, (attribute_guard _ Ha), Hs.
  destruct (Z.ltb_spec 1 (af_counter st + 1)); [|lia].
  reflexivity.
Qed.

(** C10.  On a path that ends in none of [.arff], [.csv] and [.txt],
    [load_data] returns [None] without raising, and the file system is as
    before: no file was opened. *)
Theorem load_data_other_extension `{FM : PyFloat} (w : world) (data_filename : string) :
  Py.endswith data_filename ".arff" = false ->
  Py.endswith data_filename ".csv" = false ->
  Py.endswith data_filename ".txt" = false ->
  load_data w data_filename = (Ok None, w).
Proof. intros H1 H2 H3. unfold load_data. rewrite H1, H2, H3. reflexivity. Qed.

Lemma load_data_other_extension_witness :
  Py.endswith "data.json" ".arff" = false /\
  Py.endswith "data.json" ".csv" = false /\
  Py.endswith "data.json" ".txt" = false /\
  load_data no_files "data.json" = (Ok None, no_files).
Proof.
  repeat (split; [reflexivity|]).
  apply (load_data_other_extension no_files "data.json"); reflexivity.
Defined.

(** C6 fails on the code: the second declaration has no braced list, and
    its entry has the declared values [NUMERIC]; the first declaration has
    none. *)
Theorem plain_attribute_gets_values :
  load_data_arff_lines plain_arff
  = Ok (mk_df ["a"; "b"] [[Some "1"; Some "2"]],
        [mk_meta "a" []; mk_meta "b" ["NUMERIC"]]).
Proof. vm_compute. reflexivity. Qed.

(** C7 fails on the code: the minimal file parses to two columns and two
    rows, and the metadata of [attr2] is [{A; B], the opening brace left
    on the first value; with spaces in the declarations the loader raises
    an [IndexError]. *)
Theorem minimal_arff_parse :
  fst (load_data arff_files "minimal.arff")
  = Ok (Some (mk_df ["attr1"; "attr2"]
                [[Some "1"; Some "A"]; [Some "2"; Some "B"]],
              [mk_meta "attr1" []; mk_meta "attr2" ["{A"; "B"]]))
  /\ load_data_arff_lines minimal_arff_spaces = Raise IndexError.
Proof. split; vm_compute; reflexivity. Qed.

(** ** Further properties of the bicluster reader *)

Section ReaderMore.
Context `{FM : PyFloat}.

Implicit Types (st : reader_state) (f : list string) (line : string).

Lemma space_not_found line :
  Py.startswith line " " = true -> Py.startswith line "FOUND" = false.
Proof. intros (s' & -> & _)%startswith_cons. reflexivity. Qed.

(** Outside of every block, before the first [FOUND], a line changes
    nothing. *)
Lemma reader_step_idle R b line :
  Py.startswith line "FOUND" = false ->
  reader_step (mk_reader R (-1) 0 b) line = Ok (mk_reader R (-1) 0 b).
Proof.
  intros H. unfold reader_step. rewrite H. simpl.
  destruct (Py.truthy _); [|reflexivity].
  rewrite andb_false_r. reflexivity.
Qed.

(** X1.  A file without a [FOUND] line gives the empty result set, and no
    line of it is parsed: the reader cannot raise. *)
Theorem no_found_empty_result f :
  Forall (fun line => Py.startswith line "FOUND" = false) f ->
  load_biclusters_lines f = Ok ∅.
Proof.
  intros Hf. unfold load_biclusters_lines, reader_init.
  assert (reader_loop (mk_reader ∅ (-1) 0 []) f = Ok (mk_reader ∅ (-1) 0 [])) as ->;
    [|reflexivity].
  induction Hf as [|line f Hl _ IH]; [reflexivity|].
  cbn [reader_loop]. rewrite (reader_step_idle _ _ _ Hl). exact IH.
Qed.

(** Inside a block the record lines are parsed and appended in order. *)
Lemma reader_loop_records recs : forall R i acc bs,
  Forall (fun line => Py.startswith line " " = true /\ blank line = false) recs ->
  rmap parse_record recs = Ok bs ->
  reader_loop (mk_reader R i 1 acc) recs = Ok (mk_reader R i 1 (acc ++ bs)).
Proof.
  induction recs as [|line recs IH]; intros R i acc bs Hr; simpl.
  - intros [= <-]. rewrite app_nil_r. reflexivity.
  - inversion Hr as [|? ? [Hsp Hb] Hr']; subst.
    destruct (parse_record line) as [b|] eqn:Eb; simpl; [|discriminate].
    destruct (rmap parse_record recs) as [bs'|] eqn:Ebs; simpl; [|discriminate].
    intros [= <-]. unfold reader_step. unfold blank in Hb.
    destruct (Py.truthy _); [|discriminate].
    rewrite (space_not_found _ Hsp), Hsp, Eb. simpl.
    rewrite (IH _ _ _ bs' Hr' eq_refl). rewrite <- app_assoc. reflexivity.
Qed.

(** X2.  A block closed by a blank line is committed with its records, in the
    order of their lines, under the number of [FOUND] lines before it;
    nothing that follows in the file changes that entry. *)
Theorem closed_block_committed (pre recs rest : list string) (found closing : string)
    (bs : list bicluster) :
  Py.startswith found "FOUND" = true ->
  Forall (fun line => Py.startswith line " " = true /\ blank line = false) recs ->
  rmap parse_record recs = Ok bs ->
  blank closing = true ->
  (forall r, load_biclusters_lines (pre ++ found :: recs ++ closing :: rest) = Ok r ->
             r !! count_found pre = Some bs)
  /\ (Forall (fun line => is_ok (parse_record line)) (pre ++ rest) ->
      is_ok (load_biclusters_lines (pre ++ found :: recs ++ closing :: rest))).
Proof.
  intros Hfound Hrecs Hbs Hblank. unfold load_biclusters_lines.
  assert (forall st1, reader_loop st1 (found :: recs ++ closing :: rest) =
            reader_loop (mk_reader
              (if 0 <=? rd_i st1 + 1 then <[rd_i st1 + 1 := bs]> (rd_results st1)
               else rd_results st1) (rd_i st1 + 1) 0 bs) rest) as Hblock.
  { intros st1. cbn [reader_loop]. rewrite (reader_step_found _ _ Hfound). simpl.
    rewrite reader_loop_app, (reader_loop_records _ _ _ _ _ Hrecs Hbs). simpl.
    rewrite (reader_step_blank _ _ Hblank). reflexivity. }
  split.
  - intros r. rewrite reader_loop_app.
    destruct (reader_loop reader_init pre) as [st1|] eqn:E1;
      cbn [mbind res_bind]; [|discriminate].
    rewrite Hblock.
    pose proof (reader_loop_i _ _ _ E1) as Hi. simpl in Hi.
    pose proof (count_found_nonneg pre) as Hn.
    destruct (Z.leb_spec 0 (rd_i st1 + 1)); [|lia].
    destruct (reader_loop _ rest) as [st3|] eqn:E3; simpl; [|discriminate].
    intros [= <-].
    eapply reader_loop_committed in E3 as [Hc _]; [|split; simpl].
    + replace (count_found pre) with (rd_i st1 + 1) by lia. exact Hc.
    + apply lookup_insert_eq.
    + right. auto.
  - intros [Hpre Hrest]%Forall_app. rewrite reader_loop_app.
    destruct (reader_loop_total pre reader_init Hpre) as [st1 ->].
    cbn [mbind res_bind]. rewrite Hblock.
    destruct (reader_loop_total rest
                (mk_reader
                   (if 0 <=? rd_i st1 + 1
                    then <[rd_i st1 + 1 := bs]> (rd_results st1)
                    else rd_results st1) (rd_i st1 + 1) 0 bs) Hrest) as [st3 ->].
    eexists. reflexivity.
Qed.

(** X3.  The keys of the result set are block indices of the file: at least 0
    and below the number of its [FOUND] lines. *)
Theorem result_keys_are_block_indices f r k :
  load_biclusters_lines f = Ok r ->
  is_Some (r !! k) ->
  0 <= k < count_found f.
Proof.
  unfold load_biclusters_lines.
  destruct (reader_loop reader_init f) as [st|] eqn:E; simpl; [|discriminate].
  intros [= <-] Hk.
  pose proof (reader_loop_keys _ _ _ E keys_bound_init k Hk) as Hb.
  pose proof (reader_loop_i _ _ _ E) as Hi. simpl in Hi. lia.
Qed.

(** X4.  Blank lines in a row count as one. *)
Theorem blank_lines_collapse (pre rest : list string) (b1 b2 : string) :
  blank b1 = true -> blank b2 = true ->
  load_biclusters_lines (pre ++ b1 :: b2 :: rest)
  = load_biclusters_lines (pre ++ b1 :: rest).
Proof.
  intros H1 H2. unfold load_biclusters_lines. rewrite !reader_loop_app.
  destruct (reader_loop reader_init pre) as [st|]; simpl; [|reflexivity].
  rewrite (reader_step_blank _ _ H1). simpl.
  rewrite (reader_step_blank _ _ H2). simpl.
  destruct (0 <=? rd_i st); [|reflexivity].
  rewrite insert_insert_eq. reflexivity.
Qed.

(** X5.  A record line that does not parse, inside an open block, ends the
    whole load with its exception: no result set is returned. *)
Theorem bad_record_aborts_load (pre recs rest : list string) (found bad : string)
    (bs : list bicluster) (e : exn) :
  Forall (fun line => is_ok (parse_record line)) pre ->
  Py.startswith found "FOUND" = true ->
  Forall (fun line => Py.startswith line " " = true /\ blank line = false) recs ->
  rmap parse_record recs = Ok bs ->
  Py.startswith bad " " = true -> blank bad = false ->
  parse_record bad = Raise e ->
  load_biclusters_lines (pre ++ found :: recs ++ bad :: rest) = Raise e.
Proof.
  intros Hpre Hfound Hrecs Hbs Hsp Hb He. unfold load_biclusters_lines.
  rewrite reader_loop_app.
  destruct (reader_loop_total pre reader_init Hpre) as [st1 ->]. simpl.
  rewrite (reader_step_found _ _ Hfound). simpl.
  rewrite reader_loop_app, (reader_loop_records _ _ _ _ _ Hrecs Hbs). simpl.
  unfold reader_step. unfold blank in Hb.
  destruct (Py.truthy _); [|discriminate].
  rewrite (space_not_found _ Hsp), Hsp, He. reflexivity.
Qed.

End ReaderMore.

(** ** Further properties of the renderers *)

Lemma str_of_nat_inj n m : Py.str_of_nat n = Py.str_of_nat m -> n = m.
Proof.
  unfold Py.str_of_nat. intros H.
  assert (Some (Nat.to_uint n) = Some (Nat.to_uint m)) as [= H'].
  { rewrite <- !NilEmpty.usu. rewrite H. reflexivity. }
  rewrite <- (Unsigned.of_to n), <- (Unsigned.of_to m), H'. reflexivity.
Qed.

Lemma append_length s t :
  String.length (s +:+ t) = (String.length s + String.length t)%nat.
Proof.
  induction s as [|c s IH]; [reflexivity|].
  change (String c s +:+ t) with (String c (s +:+ t)). simpl. rewrite IH. reflexivity.
Qed.

Lemma append_inv_tail t : forall s1 s2, s1 +:+ t = s2 +:+ t -> s1 = s2.
Proof.
  induction s1 as [|c s1 IH]; intros [|c' s2] H.
  - reflexivity.
  - apply (f_equal String.length) in H. rewrite !append_length in H. simpl in H. lia.
  - apply (f_equal String.length) in H. rewrite !append_length in H. simpl in H. lia.
  - change (String c (s1 +:+ t) = String c' (s2 +:+ t)) in H.
    injection H as -> H. f_equal. apply IH. exact H.
Qed.

Lemma chart_path_inj dir n m : chart_path dir n = chart_path dir m -> n = m.
Proof.
  unfold chart_path. intros H.
  apply (inj (String.append dir)) in H. apply (inj (String.append "pc_")) in H.
  apply append_inv_tail in H. apply str_of_nat_inj. exact H.
Qed.

Lemma rmap_length {A B} (f : A -> res B) (l : list A) ys :
  rmap f l = Ok ys -> length ys = length l.
Proof.
  revert ys. induction l as [|x l IH]; intros ys; simpl.
  - intros [= <-]. reflexivity.
  - destruct (f x); simpl; [|discriminate].
    destruct (rmap f l); simpl; [|discriminate].
    intros [= <-]. simpl. f_equal. apply IH. reflexivity.
Qed.

Section RendererMore.
Context `{FM : PyFloat}.

Implicit Types (bic : bicluster) (df : frame) (self : visualizer) (w : world).

Lemma write_chart_twice self w dir (fig1 fig2 : figure) :
  let s1 := write_chart self w dir fig1 in
  let s2 := write_chart (fst s1) (snd s1) dir fig2 in
  counter (fst s2) = (counter self + 2)%nat /\
  w_html (snd s2) !! chart_path dir (counter self) = Some fig1 /\
  w_html (snd s2) !! chart_path dir (counter self + 1) = Some fig2.
Proof.
  simpl. split; [lia|]. fold (chart_path dir (counter self)).
  fold (chart_path dir (counter self + 1)). split.
  - rewrite lookup_insert_ne; [apply lookup_insert_eq|].
    intros H%chart_path_inj. lia.
  - apply lookup_insert_eq.
Qed.

(** X17.  Two calls of [plot_bicluster] in a row that both complete, in the
    same mode and folder, write two files: the chart of the first call
    under the number the counter had, the chart of the second under the
    next number, and the counter ends two higher.  No number is used
    twice. *)
Theorem sequential_renders self w bic1 bic2 df1 df2
    (mv1 mv2 : list column_meta) (folder_name mode : string)
    (fig1 fig2 : figure) :
  mode = "categories" \/ mode = "coordinates" ->
  figure_for mode bic1 df1 mv1 = Ok fig1 ->
  figure_for mode bic2 df2 mv2 = Ok fig2 ->
  let s1 := plot_bicluster self w bic1 df1 mv1 folder_name mode in
  let s2 := plot_bicluster (fst (snd s1)) (snd (snd s1)) bic2 df2 mv2 folder_name mode in
  fst s1 = Ok () /\ fst s2 = Ok () /\
  counter (fst (snd s2)) = (counter self + 2)%nat /\
  w_html (snd (snd s2)) !! chart_path (chart_dir mode folder_name) (counter self)
    = Some fig1 /\
  w_html (snd (snd s2)) !! chart_path (chart_dir mode folder_name) (counter self + 1)
    = Some fig2.
Proof.
  intros [-> | ->] H1 H2; unfold figure_for in H1, H2; simpl in H1, H2;
    unfold plot_bicluster, chart_dir; simpl String.eqb; cbv iota;
    unfold plot_parallel_categories, plot_parallel_coordinates;
    rewrite H1; cbn [fst snd]; rewrite H2; cbn [fst snd];
    (split; [reflexivity|]); (split; [reflexivity|]);
    apply write_chart_twice.
Qed.

(** X18.  [plot_bicluster] with a mode that is neither ['categories'] nor
    ['coordinates'] does nothing and reports nothing: no exception, no
    chart, the counter as before, whatever the record and the dataset. *)
Theorem unknown_mode_is_noop self w bic df (main_var : list column_meta)
    (folder_name mode : string) :
  mode <> "categories" -> mode <> "coordinates" ->
  plot_bicluster self w bic df main_var folder_name mode = (Ok (), (self, w)).
Proof.
  intros H1 H2. unfold plot_bicluster.
  destruct (String.eqb_spec mode "categories"); [contradiction|].
  destruct (String.eqb_spec mode "coordinates"); [contradiction|].
  reflexivity.
Qed.

Lemma color_categories_length bic df c :
  color_categories bic df = Ok c -> length c = length (df_rows df).
Proof.
  unfold color_categories, color_by_value.
  destruct (first_column df) as [values|] eqn:E; cbn [mbind res_bind]; [|discriminate].
  pose proof (first_column_length _ _ E) as Hl.
  destruct (_ <? _)%nat; intros H%rmap_length; rewrite H;
    [apply length_seq | exact Hl].
Qed.

Lemma color_coordinates_length bic df c :
  color_coordinates bic df = Ok c -> length c = length (df_rows df).
Proof.
  unfold color_coordinates, color_by_value.
  destruct (first_column df) as [values|] eqn:E; cbn [mbind res_bind]; [|discriminate].
  pose proof (first_column_length _ _ E) as Hl.
  destruct (_ <? _)%nat; intros H%rmap_length; rewrite H;
    [apply length_seq | exact Hl].
Qed.

Lemma project_rows bic df (pdf : DataFrame value) :
  project bic df = Ok pdf -> length (df_rows pdf) = length (df_rows df).
Proof.
  unfold project. destruct (getkey _); cbn [mbind res_bind]; [|discriminate].
  destruct (select_positions _ _); cbn [mbind res_bind]; [|discriminate].
  intros [= <-]. simpl. apply length_map.
Qed.

(** The conversion of one row fails on a cell that is not numeric. *)
Lemma to_numeric_bad (v : value) :
  ~ numeric_cell v -> to_numeric (replace_missing v) = Raise ValueError.
Proof.
  destruct v as [s| | | |]; simpl; try tauto.
  intros H. destruct (String.eqb_spec s "?") as [->|_]; [tauto|].
  simpl. destruct (String.eqb_spec s "") as [->|_]; [tauto|].
  destruct (numeric_of_str s) eqn:E; [|reflexivity].
  exfalso. apply H. right. right. eauto.
Qed.

Lemma to_numeric_raise (v : value) e :
  to_numeric (replace_missing v) = Raise e -> e = ValueError.
Proof.
  destruct v as [s| | | |]; simpl; try discriminate.
  destruct (String.eqb s "?"); simpl; [discriminate|].
  destruct (String.eqb s ""); [discriminate|].
  destruct (numeric_of_str s); [discriminate|]. intros [= <-]. reflexivity.
Qed.

Lemma rmap_raise_at {A B} (f : A -> res B) (l : list A) e :
  (forall x e', f x = Raise e' -> e' = e) ->
  (exists x, In x l /\ f x = Raise e) ->
  rmap f l = Raise e.
Proof.
  intros Hall (x & Hin & Hx). induction l as [|y l IH]; [destruct Hin|].
  simpl. destruct (f y) eqn:Ey; simpl.
  - destruct Hin as [->|Hin]; [congruence|].
    rewrite (IH Hin). reflexivity.
  - f_equal. eauto.
Qed.

Lemma coerce_bad (d : DataFrame value) row v :
  In row (df_rows d) -> In v row -> ~ numeric_cell v ->
  coerce d = Raise ValueError.
Proof.
  intros Hrow Hv Hbad. unfold coerce.
  rewrite (rmap_raise_at _ _ ValueError); [reflexivity | |].
  - intros r e' (x & Hx)%rmap_raise. eauto using to_numeric_raise.
  - exists row. split; [exact Hrow|].
    apply rmap_raise_at; [eauto using to_numeric_raise|].
    exists v. split; [exact Hv | apply to_numeric_bad; exact Hbad].
Qed.

Lemma insert_color_row (pdf : DataFrame value) (c : list Z) row :
  length c = length (df_rows pdf) -> In row (df_rows pdf) ->
  exists z, In (row ++ [VInt z]) (df_rows (insert_color pdf c)).
Proof.
  unfold insert_color. simpl. revert c.
  induction (df_rows pdf) as [|r rows IH]; intros c Hl Hrow; [destruct Hrow|].
  destruct c as [|z c]; [discriminate|]. injection Hl as Hl.
  destruct Hrow as [->|Hrow].
  - exists z. left. reflexivity.
  - destruct (IH c Hl Hrow) as [z' Hz]. exists z'. right. exact Hz.
Qed.

(** X13.  When the record's columns exist and one of their cells holds a
    string that is neither the marker [?], nor empty, nor a number for
    [pd.to_numeric], the numeric renderer raises a [ValueError] and writes
    nothing; the counter keeps its value. *)
Theorem non_numeric_cell_fails_before_write self w bic df
    (main_var : list column_meta) (folder_name : string)
    (c : list Z) (pdf : DataFrame value) (row : list value) (v : value) :
  color_coordinates bic df = Ok c ->
  project bic df = Ok pdf ->
  In row (df_rows pdf) -> In v row -> ~ numeric_cell v ->
  plot_parallel_coordinates self w bic df main_var folder_name
    = (Raise ValueError, (self, w)).
Proof.
  intros Hc Hp Hrow Hv Hbad.
  unfold plot_parallel_coordinates, figure_coordinates, chart_coordinates.
  rewrite Hc, Hp. cbn [mbind res_bind].
  pose proof (color_coordinates_length _ _ _ Hc) as Hl.
  rewrite <- (project_rows _ _ _ Hp) in Hl.
  destruct (insert_color_row pdf c row Hl Hrow) as [z Hz].
  rewrite (coerce_bad (insert_color pdf c) (row ++ [VInt z]) v);
    [reflexivity | exact Hz | apply in_or_app; left; exact Hv | exact Hbad].
Qed.

End RendererMore.

Lemma getitem_lookup {A} (l : list A) (i : nat) x :
  l !! i = Some x -> getitem l i = Ok x.
Proof.
  unfold getitem. revert i. induction l as [|y l IH]; intros [|i]; simpl;
    try discriminate.
  - intros [= ->]. reflexivity.
  - apply IH.
Qed.

Lemma getitem_out {A} (l : list A) (i : nat) :
  (length l <= i)%nat -> getitem l i = Raise IndexError.
Proof.
  unfold getitem. revert i. induction l as [|y l IH]; intros [|i]; simpl;
    try reflexivity; try lia.
  intros H. apply IH. lia.
Qed.

Section Annotations.
Context `{FM : PyFloat}.

Implicit Types (bic : bicluster) (df : frame) (self : visualizer) (w : world).

Lemma lift_lines_enough (vs : list string) (ls : list pyfloat) : forall n k acc,
  (k + n = length vs)%nat -> (length vs <= length ls)%nat ->
  lift_lines vs (Some ls) (seq k n) acc
  = Ok (acc ++ concat (zip_with lift_line (drop k vs) (drop k ls))).
Proof.
  induction n as [|n IH]; intros k acc Hk Hl; simpl.
  - rewrite drop_ge by lia. simpl. rewrite app_nil_r. reflexivity.
  - destruct (lookup_lt_is_Some_2 vs k) as [v Hv]; [lia|].
    destruct (lookup_lt_is_Some_2 ls k) as [x Hx]; [lia|].
    rewrite (getitem_lookup _ _ _ Hv), (getitem_lookup _ _ _ Hx). simpl.
    rewrite IH by lia.
    rewrite (drop_S vs v k Hv), (drop_S ls x k Hx). simpl.
    unfold lift_line at 2. rewrite <- !app_assoc. reflexivity.
Qed.

Lemma lift_lines_short (vs : list string) (ls : list pyfloat) : forall n k acc,
  (k + n = length vs)%nat -> (k <= length ls)%nat -> (length ls < length vs)%nat ->
  lift_lines vs (Some ls) (seq k n) acc = Raise IndexError.
Proof.
  induction n as [|n IH]; intros k acc Hk Hkl Hl; simpl; [lia|].
  destruct (lookup_lt_is_Some_2 vs k) as [v Hv]; [lia|].
  rewrite (getitem_lookup _ _ _ Hv). simpl.
  destruct (decide (k < length ls)%nat) as [Hlt|Hge].
  - destruct (lookup_lt_is_Some_2 ls k Hlt) as [x Hx].
    rewrite (getitem_lookup _ _ _ Hx). simpl. apply IH; lia.
  - rewrite getitem_out by lia. reflexivity.
Qed.

(** X14.  With metadata whose first entry declares values, and a record with a
    p-value and at least as many lifts as declared values, both renderers
    annotate the p-value, the heading and one lift line per declared
    value, pairing value and lift by position; lifts beyond the declared
    values are left out. *)
Theorem lift_lines_per_declared_value bic (m : column_meta)
    (main_var : list column_meta) (p : pyfloat) (ls : list pyfloat) :
  bic_pvalue bic = Some p ->
  bic_lifts bic = Some ls ->
  vals m <> [] ->
  (length (vals m) <= length ls)%nat ->
  let note := Lit "P-value = " :: Fmt3e p :: Lit "<br>Lift:<br>"
              :: concat (zip_with lift_line (vals m) ls) in
  annotate_categories bic (first_meta (m :: main_var)) = Ok [note] /\
  annotate_coordinates bic (first_meta (m :: main_var)) = Ok [note].
Proof.
  intros Hp Hls Hv Hlen note.
  unfold annotate_categories, annotate_coordinates, first_meta, lift_text.
  rewrite Hp, Hls. simpl.
  case_bool_decide; [contradiction|]. simpl.
  rewrite (lift_lines_enough _ _ _ 0%nat) by (simpl; lia). simpl.
  rewrite !drop_0. split; reflexivity.
Qed.

(** X15.  With fewer lifts than declared values, a renderer whose chart
    was built (colors, projection, conversion and the chart call went
    through) raises an [IndexError] while building the annotation, before
    anything is written. *)
Theorem short_lifts_fail_before_write self w bic df (m : column_meta)
    (main_var : list column_meta) (folder_name : string)
    (p : pyfloat) (ls : list pyfloat) :
  bic_pvalue bic = Some p ->
  bic_lifts bic = Some ls ->
  (length ls < length (vals m))%nat ->
  (is_ok (chart_categories bic df) ->
   plot_parallel_categories self w bic df (m :: main_var) folder_name
     = (Raise IndexError, (self, w)))
  /\ (is_ok (chart_coordinates bic df) ->
      plot_parallel_coordinates self w bic df (m :: main_var) folder_name
        = (Raise IndexError, (self, w))).
Proof.
  intros Hp Hls Hlen.
  assert (vals m <> []) as Hv by (intros E; rewrite E in Hlen; simpl in Hlen; lia).
  assert (lift_text m bic = Raise IndexError) as Hlift.
  { unfold lift_text. rewrite Hls. apply lift_lines_short; simpl; lia. }
  split; intros [fig Hfig];
    unfold plot_parallel_categories, plot_parallel_coordinates,
      figure_categories, figure_coordinates;
    rewrite Hfig; cbn [mbind res_bind];
    unfold annotate_categories, annotate_coordinates, first_meta;
    rewrite Hp, Hls; simpl;
    (case_bool_decide; [contradiction|]); simpl; rewrite Hlift; reflexivity.
Qed.

(** X16.  A record without the key ['cols'], or without the key ['lines'] on a
    dataset that has rows, makes both renderers raise a lookup error
    before anything is written. *)
Theorem missing_key_fails_before_write self w bic df
    (main_var : list column_meta) (folder_name : string) :
  bic_cols bic = None \/ (bic_lines bic = None /\ df_rows df <> []) ->
  exists e1 e2,
    is_LookupError e1 = true /\ is_LookupError e2 = true /\
    plot_parallel_categories self w bic df main_var folder_name
      = (Raise e1, (self, w)) /\
    plot_parallel_coordinates self w bic df main_var folder_name
      = (Raise e2, (self, w)).
Proof.
  intros H.
  assert (forall c1, color_categories bic df = Ok c1 -> project bic df = Raise KeyError)
    as Hcat.
  { intros c1 Hc. destruct H as [H | [Hl Hr]].
    - unfold project. rewrite H. reflexivity.
    - exfalso. unfold color_categories, color_by_value, color_positional in Hc.
      destruct (first_column df) as [values|] eqn:E; cbn [mbind res_bind] in Hc;
        [|discriminate].
      pose proof (first_column_length _ _ E) as Hlen.
      destruct (df_rows df) as [|r rows]; [contradiction|].
      destruct values as [|x values]; [discriminate|].
      rewrite Hl in Hc. destruct (_ <? _)%nat; simpl in Hc; discriminate. }
  assert (forall c2, color_coordinates bic df = Ok c2 -> project bic df = Raise KeyError)
    as Hnum.
  { intros c2 Hc. destruct H as [H | [Hl Hr]].
    - unfold project. rewrite H. reflexivity.
    - exfalso. unfold color_coordinates, color_by_value, color_positional in Hc.
      destruct (first_column df) as [values|] eqn:E; cbn [mbind res_bind] in Hc;
        [|discriminate].
      pose proof (first_column_length _ _ E) as Hlen.
      destruct (df_rows df) as [|r rows]; [contradiction|].
      destruct values as [|x values]; [discriminate|].
      rewrite Hl in Hc. destruct (_ <? _)%nat; simpl in Hc; discriminate. }
  unfold plot_parallel_categories, plot_parallel_coordinates,
    figure_categories, figure_coordinates, chart_categories, chart_coordinates.
  destruct (color_categories bic df) as [c1|e1] eqn:E1;
    destruct (color_coordinates bic df) as [c2|e2] eqn:E2;
    try rewrite (Hcat _ eq_refl); try rewrite (Hnum _ eq_refl); simpl.
  - exists KeyError, KeyError. auto.
  - exists KeyError, e2. apply color_coordinates_raise in E2. auto.
  - exists e1, KeyError. apply color_categories_raise in E1. auto.
  - exists e1, e2. apply color_categories_raise in E1.
    apply color_coordinates_raise in E2. auto.
Qed.

End Annotations.

Section Projection.
Context `{FM : PyFloat}.

Implicit Types (bic : bicluster) (df : frame).

Lemma positions_unique name : forall columns i,
  NoDup columns -> In name columns ->
  exists p, positions name columns i = [(i + p)%nat] /\ nth p columns "" = name.
Proof.
  induction columns as [|c columns IH]; intros i Hnd Hin; [destruct Hin|].
  apply NoDup_cons in Hnd as [Hc Hnd]. simpl.
  destruct (String.eqb_spec c name) as [->|Hne].
  - exists 0%nat. rewrite positions_absent.
    + split; [f_equal; lia | reflexivity].
    + intros H. apply Hc. apply list_elem_of_In. exact H.
  - destruct Hin as [->|Hin]; [congruence|].
    destruct (IH (S i) Hnd Hin) as (p & Hp & Hnth).
    exists (S p). split; [rewrite Hp; f_equal; lia | exact Hnth].
Qed.

Lemma select_positions_names columns : forall names ps,
  NoDup columns ->
  select_positions names columns = Ok ps ->
  map (fun p => nth p columns "") ps = names.
Proof.
  induction names as [|name names IH]; intros ps Hnd; simpl.
  - intros [= <-]. reflexivity.
  - destruct (in_dec String.string_dec name columns) as [Hin|Hout].
    + destruct (positions_unique name columns 0 Hnd Hin) as (p & -> & Hnth).
      destruct (select_positions names columns) as [qs|] eqn:E; simpl; [|discriminate].
      intros [= <-]. simpl. rewrite Hnth, (IH qs Hnd eq_refl). reflexivity.
    + rewrite positions_absent by assumption. discriminate.
Qed.

Lemma project_columns bic df (pdf : DataFrame value) names :
  NoDup (df_columns df) -> bic_cols bic = Some names ->
  project bic df = Ok pdf -> df_columns pdf = names.
Proof.
  intros Hnd Hn. unfold project. rewrite Hn. cbn [getkey mbind res_bind].
  destruct (select_positions names (df_columns df)) as [ps|] eqn:E;
    cbn [mbind res_bind]; [|discriminate].
  intros [= <-]. simpl. apply select_positions_names; assumption.
Qed.

Lemma insert_color_shape (pdf : DataFrame value) (c : list Z) :
  length c = length (df_rows pdf) ->
  df_columns (insert_color pdf c) = df_columns pdf ++ ["color"] /\
  length (df_rows (insert_color pdf c)) = length (df_rows pdf).
Proof.
  intros H. unfold insert_color. simpl. split; [reflexivity|].
  rewrite length_zip_with. lia.
Qed.

Lemma coerce_shape (d d' : DataFrame value) :
  coerce d = Ok d' ->
  df_columns d' = df_columns d /\ length (df_rows d') = length (df_rows d).
Proof.
  unfold coerce. destruct (rmap _ (df_rows d)) as [rows|] eqn:E; simpl; [|discriminate].
  intros [= <-]. simpl. split; [reflexivity|]. apply (rmap_length _ _ _ E).
Qed.

(** X12.  On a dataset whose column names are distinct, the frame that
    either renderer hands to the chart call has the record's columns, in
    the record's order, followed by the column [color], one row per row of
    the dataset, and the chart's dimensions are the record's columns;
    this is so whatever the metadata and the annotation that follows. *)
Theorem chart_frame_shape bic df (fig : figure) :
  NoDup (df_columns df) ->
  chart_categories bic df = Ok fig \/ chart_coordinates bic df = Ok fig ->
  exists names,
    bic_cols bic = Some names /\
    df_columns (fig_data fig) = names ++ ["color"] /\
    fig_dimensions fig = names /\
    length (df_rows (fig_data fig)) = length (df_rows df).
Proof.
  intros Hnd [H|H].
  - unfold chart_categories in H.
    destruct (color_categories bic df) as [c|] eqn:Ec; cbn [mbind res_bind] in H;
      [|discriminate].
    destruct (project bic df) as [pdf|] eqn:Ep; cbn [mbind res_bind] in H;
      [|discriminate].
    destruct (bic_cols bic) as [names|] eqn:En; cbn [getkey mbind res_bind] in H;
      [|discriminate].
    unfold px_parallel in H. case_bool_decide; [|discriminate].
    injection H as <-. exists names. simpl.
    pose proof (color_categories_length _ _ _ Ec) as Hl.
    pose proof (project_rows _ _ _ Ep) as Hr.
    rewrite (project_columns _ _ _ _ Hnd En Ep).
    rewrite length_zip_with. repeat split; lia.
  - unfold chart_coordinates in H.
    destruct (color_coordinates bic df) as [c|] eqn:Ec; cbn [mbind res_bind] in H;
      [|discriminate].
    destruct (project bic df) as [pdf|] eqn:Ep; cbn [mbind res_bind] in H;
      [|discriminate].
    destruct (coerce (insert_color pdf c)) as [ndf|] eqn:Eco;
      cbn [mbind res_bind] in H; [|discriminate].
    destruct (bic_cols bic) as [names|] eqn:En; cbn [getkey mbind res_bind] in H;
      [|discriminate].
    unfold px_parallel in H. case_bool_decide; [|discriminate].
    injection H as <-. exists names. simpl.
    pose proof (color_coordinates_length _ _ _ Ec) as Hl.
    pose proof (project_rows _ _ _ Ep) as Hr.
    destruct (coerce_shape _ _ Eco) as [Hcols Hrows].
    destruct (insert_color_shape pdf c) as [Hic Hir]; [lia|].
    rewrite Hcols, Hrows, Hic, Hir, (project_columns _ _ _ _ Hnd En Ep).
    repeat split; lia.
Qed.

End Projection.

(** ** Further properties of the loaders *)

Lemma append_nil_r s : s +:+ "" = s.
Proof.
  induction s as [|c s IH]; [reflexivity|].
  change (String c s +:+ "") with (String c (s +:+ "")). rewrite IH. reflexivity.
Qed.

Lemma append_assoc s1 s2 s3 : (s1 +:+ s2) +:+ s3 = s1 +:+ (s2 +:+ s3).
Proof.
  induction s1 as [|c s1 IH]; [reflexivity|].
  change (String c ((s1 +:+ s2) +:+ s3) = String c (s1 +:+ (s2 +:+ s3))).
  rewrite IH. reflexivity.
Qed.

Lemma rev_app_append s1 s2 : String.rev_app s1 s2 = String.rev s1 +:+ s2.
Proof.
  unfold String.rev. revert s2.
  induction s1 as [|c s1 IH]; intros s2; [reflexivity|].
  simpl. rewrite IH, (IH (String c "")), append_assoc. reflexivity.
Qed.

Lemma prefix_drop p : forall s,
  String.prefix p s = true -> p +:+ string_drop (String.length p) s = s.
Proof.
  induction p as [|a p IH]; intros s H; [destruct s; reflexivity|].
  apply (startswith_cons a p s) in H as (s' & -> & H).
  simpl. change (String a p +:+ string_drop (String.length p) s')
    with (String a (p +:+ string_drop (String.length p) s')).
  rewrite (IH _ H). reflexivity.
Qed.

Lemma split_go_nonempty sep s : forall skip cur, Py.split_go sep skip cur s <> [].
Proof.
  induction s as [|c s IH]; intros skip cur; cbn [Py.split_go]; [discriminate|].
  destruct skip; [|apply IH].
  destruct (String.prefix sep (String c s)); [discriminate | apply IH].
Qed.

Lemma join_cons sep x l : l <> [] -> Py.join sep (x :: l) = x +:+ sep +:+ Py.join sep l.
Proof. destruct l; [contradiction | reflexivity]. Qed.

Lemma join_split_go sep s : forall skip cur,
  sep <> "" ->
  Py.join sep (Py.split_go sep skip cur s) = String.rev cur +:+ string_drop skip s.
Proof.
  induction s as [|c s IH]; intros skip cur Hsep.
  - simpl. destruct skip; simpl; rewrite append_nil_r; reflexivity.
  - cbn [Py.split_go]. destruct skip as [|k].
    + destruct (String.prefix sep (String c s)) eqn:Hp.
      * rewrite join_cons by apply split_go_nonempty.
        rewrite IH by assumption.
        destruct sep as [|a sep']; [contradiction|].
        apply (startswith_cons a sep' (String c s)) in Hp as (s' & Heq & Hp).
        injection Heq as <- <-.
        simpl.
        change (String.rev "" +:+ string_drop (String.length sep') s)
          with (string_drop (String.length sep') s).
        change (String c sep' +:+ string_drop (String.length sep') s)
          with (String c (sep' +:+ string_drop (String.length sep') s)).
        rewrite (prefix_drop _ _ Hp). reflexivity.
      * rewrite IH by assumption. simpl.
        unfold String.rev at 1. simpl. rewrite rev_app_append, append_assoc.
        reflexivity.
    + rewrite IH by assumption. reflexivity.
Qed.

(** X11.  Splitting loses nothing: joining the pieces of [s.split(sep)] with
    [sep] gives [s] back.  So the cells of a CSV or ARFF data row, joined
    with commas, are the line as it was read, and a comma inside a field
    cannot be told from a separator. *)
Theorem join_split s sep : sep <> "" -> Py.join sep (Py.split s sep) = s.
Proof. intros H. unfold Py.split. rewrite join_split_go by assumption. reflexivity. Qed.

Lemma split_nonempty s sep : Py.split s sep <> [].
Proof. apply split_go_nonempty. Qed.

Lemma max_width_ge {A} (data : list (list A)) row :
  In row data -> (length row <= max_width data)%nat.
Proof.
  induction data as [|r data IH]; [intros []|].
  intros [->|H]; simpl; [lia|]. specialize (IH H). lia.
Qed.

Lemma max_width_uniform {A} (data : list (list A)) n :
  data <> [] -> Forall (fun row => length row = n) data -> max_width data = n.
Proof.
  induction data as [|r data IH]; [contradiction|].
  intros _ Hf. inversion Hf as [|? ? Hr Hd]; subst. simpl.
  destruct data as [|r' data]; [simpl; lia|].
  rewrite IH by (discriminate || assumption). lia.
Qed.

Lemma pad_row_length {A} w (row : list A) :
  (length row <= w)%nat -> length (pad_row w row) = w.
Proof.
  intros H. unfold pad_row. rewrite length_app, length_map, repeat_length. lia.
Qed.

Lemma pd_DataFrame_columns data cs (df : frame) :
  pd_DataFrame data (Some cs) = Ok df -> df_columns df = cs.
Proof.
  unfold pd_DataFrame. destruct data; [intros [= <-]; reflexivity|].
  destruct (_ =? _)%nat; [|discriminate]. intros [= <-]. reflexivity.
Qed.

Lemma pd_DataFrame_rectangular data columns (df : frame) :
  pd_DataFrame data columns = Ok df -> rectangular df.
Proof.
  unfold pd_DataFrame, rectangular.
  destruct data as [|r data]; [intros [= <-]; constructor|].
  set (d := r :: data).
  assert (Forall (fun row => length row = max_width d) (map (pad_row (max_width d)) d))
    as Hpad.
  { apply List.Forall_forall. intros row (x & <- & Hx)%in_map_iff.
    apply pad_row_length, max_width_ge, Hx. }
  destruct columns as [cs|].
  - destruct (Nat.eqb_spec (length cs) (max_width d)) as [E|]; [|discriminate].
    intros [= <-]. simpl. rewrite E. exact Hpad.
  - intros [= <-]. simpl. rewrite length_map, length_seq. exact Hpad.
Qed.

Lemma dropna_all_rectangular (df : frame) : rectangular df -> rectangular (dropna_all df).
Proof.
  unfold rectangular, dropna_all. simpl. intros H.
  apply List.Forall_forall. intros row [Hin _]%filter_In.
  rewrite List.Forall_forall in H. apply H, Hin.
Qed.

(** Rows of strings that are all as wide as the labels make the frame as
    they are; no row is dropped. *)
Lemma pd_DataFrame_uniform data cs :
  cs <> [] ->
  Forall (fun row => length row = length cs) data ->
  (df ← pd_DataFrame data (Some cs); Ok (dropna_all df))
  = Ok (mk_df cs (map (map Some) data)).
Proof.
  intros Hcs Hf.
  assert (List.filter (existsb notna) (map (map Some) data) = map (map Some) data)
    as Hkeep.
  { clear -Hcs Hf. induction Hf as [|row data Hr _ IH]; [reflexivity|].
    simpl. destruct row as [|x row]; [destruct cs; [contradiction | discriminate]|].
    simpl. rewrite IH. reflexivity. }
  unfold pd_DataFrame. destruct data as [|r data]; [reflexivity|].
  rewrite (max_width_uniform _ (length cs)) by (discriminate || assumption).
  rewrite Nat.eqb_refl. cbn [mbind res_bind]. unfold dropna_all. cbn [df_rows df_columns].
  assert (map (pad_row (length cs)) (r :: data) = map (map Some) (r :: data)) as ->.
  { apply map_ext_in. intros row Hin. rewrite List.Forall_forall in Hf.
    unfold pad_row. rewrite (Hf _ Hin), Nat.sub_diag. apply app_nil_r. }
  rewrite Hkeep. reflexivity.
Qed.

Lemma csv_loop_rows f : forall cols data counter,
  0 < counter ->
  csv_loop f cols data counter = (cols, data ++ map cells f).
Proof.
  induction f as [|line f IH]; intros cols data counter Hc; simpl.
  - rewrite app_nil_r. reflexivity.
  - destruct (Z.eqb_spec counter 0); [lia|].
    rewrite IH by lia. rewrite <- app_assoc. reflexivity.
Qed.

(** X8.  The CSV loader on a file whose rows have as many cells as the header:
    the header cells are the column names, every later line, blank ones
    too, is a row of its cells as strings, and the metadata is empty. *)
Theorem csv_rows_kept (header : string) (rows : list string) :
  Forall (fun line => length (cells line) = length (cells header)) rows ->
  load_data_csv_lines (header :: rows)
  = Ok (mk_df (cells header) (map (fun line => map Some (cells line)) rows), []).
Proof.
  intros Hf. unfold load_data_csv_lines. cbn [csv_loop]. simpl (0 =? 0).
  cbv iota. rewrite csv_loop_rows by lia. simpl app.
  fold (cells header).
  pose proof (pd_DataFrame_uniform (map cells rows) (cells header)
                (split_nonempty _ _)) as H.
  rewrite List.Forall_map in H. specialize (H Hf).
  destruct (pd_DataFrame (map cells rows) (Some (cells header))) as [df|];
    cbn [mbind res_bind] in *; [|discriminate].
  assert (dropna_all df = mk_df (cells header) (map (map Some) (map cells rows)))
    as -> by congruence.
  rewrite map_map. reflexivity.
Qed.

Lemma txt_loop_rows f : forall cols data counter,
  1 < counter ->
  txt_loop f cols data counter = Ok (cols, data ++ map bar_cells f).
Proof.
  induction f as [|line f IH]; intros cols data counter Hc; simpl.
  - rewrite app_nil_r. reflexivity.
  - destruct (Z.eqb_spec counter 1); [lia|].
    destruct (Z.ltb_spec 1 counter); [|lia].
    rewrite IH by lia. rewrite <- app_assoc. reflexivity.
Qed.

(** X9.  The TXT loader: the first line is skipped; the second gives the
    column names, after the synthetic name [lines], from what follows its
    first [: []; every later line is a row of its [|]-separated cells.
    Without [: [] in the second line the loader raises an
    [IndexError]. *)
Theorem txt_shape (title header : string) (rows : list string) :
  match nth_error (Py.split header ": [") 1 with
  | Some h =>
      let cols := "lines" :: Py.split (Py.rstrip ("]" +:+ Py.nl) h) ", " in
      Forall (fun line => length (bar_cells line) = length cols) rows ->
      load_data_txt_lines (title :: header :: rows)
      = Ok (mk_df cols (map (fun line => map Some (bar_cells line)) rows), [])
  | None => load_data_txt_lines (title :: header :: rows) = Raise IndexError
  end.
Proof.
  unfold load_data_txt_lines.
  change (txt_loop (title :: header :: rows) [] [] 0)
    with (h ← getitem (Py.split header ": [") 1%nat;
          txt_loop rows ("lines" :: Py.split (Py.rstrip ("]" +:+ Py.nl) h) ", ") [] 2).
  unfold getitem.
  destruct (nth_error (Py.split header ": [") 1) as [h|]; [|reflexivity].
  intros Hf. cbn [mbind res_bind]. rewrite txt_loop_rows by lia.
  cbn [mbind res_bind]. simpl app.
  set (cols := "lines" :: Py.split (Py.rstrip ("]" +:+ Py.nl) h) ", ") in *.
  pose proof (pd_DataFrame_uniform (map bar_cells rows) cols) as H.
  rewrite List.Forall_map in H. specialize (H ltac:(discriminate) Hf).
  destruct (pd_DataFrame (map bar_cells rows) (Some cols)) as [df|];
    cbn [mbind res_bind] in *; [|discriminate].
  assert (dropna_all df = mk_df cols (map (map Some) (map bar_cells rows)))
    as -> by congruence.
  rewrite map_map. reflexivity.
Qed.

Lemma arff_columns_spec data cols : forall cs final_cols final_data fc fd,
  NoDup final_cols ->
  arff_columns data cols cs final_cols final_data = Ok (fc, fd) ->
  NoDup fc /\ (length fc <= length final_cols + length cs)%nat.
Proof.
  induction cs as [|col cs IH]; intros final_cols final_data fc fd Hnd; simpl.
  - intros [= <- <-]. split; [assumption | lia].
  - destruct (getitem cols col) as [name|]; cbn [mbind res_bind]; [|discriminate].
    destruct (Py.str_in name final_cols) eqn:Hin.
    + intros H. apply IH in H as [? ?]; [|assumption]. split; [assumption | lia].
    + destruct (arff_fill _ _ _ _); cbn [mbind res_bind]; [|discriminate].
      intros H. apply IH in H as [? Hlen].
      * split; [assumption|]. rewrite length_app in Hlen. simpl in Hlen. lia.
      * apply NoDup_app. split; [assumption|]. split; [|apply NoDup_singleton].
        intros x Hx ->%list_elem_of_singleton.
        apply list_elem_of_In, str_in_In in Hx. congruence.
Qed.

Lemma arff_step_counts (st st' : arff_state) line :
  arff_step st line = Ok st' ->
  length (af_main_var st) = length (af_cols st) ->
  length (af_main_var st') = length (af_cols st').
Proof.
  unfold arff_step. destruct (Py.truthy _); [|intros [= <-]; auto].
  destruct (af_flag st =? 1); [intros [= <-]; auto|].
  destruct (Py.startswith line "@ATTRIBUTE").
  - destruct (_ && _); destruct (getitem (Py.split line Py.tab) 1);
      cbn [mbind res_bind]; try discriminate;
      try (destruct (getitem (Py.split line Py.tab) 2); cbn [mbind res_bind];
           try discriminate);
      intros [= <-] H; simpl; rewrite !length_app, H; reflexivity.
  - destruct (Py.startswith line "@DATA"); intros [= <-]; auto.
Qed.

Lemma arff_loop_counts f : forall (st st' : arff_state),
  arff_loop st f = Ok st' ->
  length (af_main_var st) = length (af_cols st) ->
  length (af_main_var st') = length (af_cols st').
Proof.
  induction f as [|line f IH]; intros st st'; simpl.
  - intros [= <-]. auto.
  - destruct (arff_step st line) as [st1|] eqn:E; cbn [mbind res_bind];
      [|discriminate].
    eauto using arff_step_counts.
Qed.

(** X7.  Whatever the ARFF loader returns has distinct column names: of
    attributes declared under one name only the first is a column.  The
    metadata has one entry per declaration, so it can be longer than the
    columns, and then its positions no longer match them. *)
Theorem arff_columns_distinct (f : list string) (df : frame)
    (main_var : list column_meta) :
  load_data_arff_lines f = Ok (df, main_var) ->
  NoDup (df_columns df) /\ (length (df_columns df) <= length main_var)%nat.
Proof.
  unfold load_data_arff_lines.
  destruct (arff_loop _ f) as [st|] eqn:E; cbn [mbind res_bind]; [|discriminate].
  pose proof (arff_loop_counts _ _ _ E eq_refl) as Hc.
  destruct (arff_columns _ _ _ _ _) as [[fc fd]|] eqn:Ec; cbn [mbind res_bind];
    [|discriminate].
  apply arff_columns_spec in Ec as [Hnd Hlen]; [|constructor].
  destruct (pd_DataFrame fd (Some fc)) as [d|] eqn:Ed; cbn [mbind res_bind];
    [|discriminate].
  intros [= <- <-]. simpl. rewrite (pd_DataFrame_columns _ _ _ Ed).
  split; [assumption|]. rewrite length_seq in Hlen. simpl in Hlen. lia.
Qed.

(** X10.  Every dataset that [load_data] returns is rectangular, each row as
    wide as the column names, and comes without metadata unless the path
    ends in [.arff]. *)
Theorem load_data_rectangular `{FM : PyFloat} (w w' : world) (data_filename : string)
    (df : frame) (main_var : list column_meta) :
  load_data w data_filename = (Ok (Some (df, main_var)), w') ->
  rectangular df /\ (Py.endswith data_filename ".arff" = false -> main_var = []).
Proof.
  unfold load_data, with_file.
  destruct (Py.endswith data_filename ".arff");
    [|destruct (Py.endswith data_filename ".csv");
      [|destruct (Py.endswith data_filename ".txt"); [|discriminate]]];
    destruct (open w data_filename) as [[f|e] w1]; try discriminate.
  - unfold load_data_arff_lines.
    destruct (arff_loop _ f); cbn [mbind res_bind]; [|discriminate].
    destruct (arff_columns _ _ _ _ _) as [[fc fd]|]; cbn [mbind res_bind];
      [|discriminate].
    destruct (pd_DataFrame fd (Some fc)) as [d|] eqn:Ed; cbn [mbind res_bind];
      [|discriminate].
    intros [= <- <- <-]. split; [|discriminate].
    apply dropna_all_rectangular, (pd_DataFrame_rectangular _ _ _ Ed).
  - unfold load_data_csv_lines. destruct (csv_loop f None [] 0) as [cols data].
    destruct (pd_DataFrame data cols) as [d|] eqn:Ed; cbn [mbind res_bind];
      [|discriminate].
    intros [= <- <- <-]. split; [|reflexivity].
    apply dropna_all_rectangular, (pd_DataFrame_rectangular _ _ _ Ed).
  - unfold load_data_txt_lines.
    destruct (txt_loop f [] [] 0) as [[cols data]|]; cbn [mbind res_bind];
      [|discriminate].
    destruct (pd_DataFrame data (Some cols)) as [d|] eqn:Ed; cbn [mbind res_bind];
      [|discriminate].
    intros [= <- <- <-]. split; [|reflexivity].
    apply dropna_all_rectangular, (pd_DataFrame_rectangular _ _ _ Ed).
Qed.

(** *** The ARFF loader on a well-formed file *)

Lemma arff_fill_first data : forall m j,
  (j + m = length data)%nat ->
  Forall (fun row => (0 < length row)%nat) data ->
  arff_fill data 0 (seq j m) (map (take 1) (take j data))
  = Ok (map (take 1) data).
Proof.
  induction m as [|m IH]; intros j Hj Hrows; cbn [seq arff_fill].
  - rewrite firstn_all2 by lia. reflexivity.
  - destruct (lookup_lt_is_Some_2 data j) as [row Hrow]; [lia|].
    assert (0 < length row)%nat as Hlen.
    { rewrite List.Forall_forall in Hrows. apply Hrows.
      apply list_elem_of_In, list_elem_of_lookup. eauto. }
    destruct (lookup_lt_is_Some_2 row 0 Hlen) as [v Hv].
    rewrite length_map, length_take, Nat.min_l by lia.
    destruct (Nat.leb_spec (j + 1) j); [lia|].
    assert (length (map (take 1) (take j data)) = j) as Hl
      by (rewrite length_map, length_take; lia).
    rewrite (getitem_lookup (map (take 1) (take j data) ++ [[]]) j []); cycle 1.
    { rewrite lookup_app_r by lia. rewrite Hl, Nat.sub_diag. reflexivity. }
    cbn [mbind res_bind]. rewrite (getitem_lookup _ _ _ Hrow).
    cbn [mbind res_bind]. rewrite (getitem_lookup _ _ _ Hv).
    cbn [mbind res_bind].
    assert (alter (fun r => r ++ [v]) j (map (take 1) (take j data) ++ [[]])
            = map (take 1) (take (S j) data)) as ->.
    { rewrite alter_app_r_alt by lia. rewrite Hl, Nat.sub_diag. simpl.
      rewrite (take_S_r data j row Hrow), map_app. simpl.
      destruct row as [|x row]; [simpl in Hlen; lia|].
      simpl in Hv. injection Hv as ->. reflexivity. }
    apply IH; [lia | assumption].
Qed.

Lemma arff_fill_next data col : forall m j,
  (j + m = length data)%nat ->
  Forall (fun row => (S col < length row)%nat) data ->
  arff_fill data (S col) (seq j m)
    (map (take (S (S col))) (take j data) ++ map (take (S col)) (drop j data))
  = Ok (map (take (S (S col))) data).
Proof.
  induction m as [|m IH]; intros j Hj Hrows; cbn [seq arff_fill].
  - rewrite firstn_all2 by lia. rewrite drop_ge by lia. simpl.
    rewrite app_nil_r. reflexivity.
  - destruct (lookup_lt_is_Some_2 data j) as [row Hrow]; [lia|].
    assert (S col < length row)%nat as Hlen.
    { rewrite List.Forall_forall in Hrows. apply Hrows.
      apply list_elem_of_In, list_elem_of_lookup. eauto. }
    destruct (lookup_lt_is_Some_2 row (S col) Hlen) as [v Hv].
    assert (length (map (take (S (S col))) (take j data)) = j) as Hl
      by (rewrite length_map, length_take; lia).
    rewrite length_app, Hl, length_map, length_drop.
    destruct (Nat.leb_spec (j + 1) (j + (length data - j))); [|lia].
    rewrite (drop_S data row j Hrow). cbn [map].
    rewrite (getitem_lookup
               (map (take (S (S col))) (take j data)
                ++ take (S col) row :: map (take (S col)) (drop (S j) data))
               j (take (S col) row)); cycle 1.
    { rewrite lookup_app_r by lia. rewrite Hl, Nat.sub_diag. reflexivity. }
    cbn [mbind res_bind]. rewrite (getitem_lookup _ _ _ Hrow).
    cbn [mbind res_bind]. rewrite (getitem_lookup _ _ _ Hv).
    cbn [mbind res_bind].
    rewrite alter_app_r_alt by lia. rewrite Hl, Nat.sub_diag. cbn [alter list_alter].
    rewrite <- (take_S_r row (S col) v Hv).
    specialize (IH (S j) ltac:(lia) Hrows).
    rewrite (take_S_r data j row Hrow), map_app, <- app_assoc in IH.
    exact IH.
Qed.

Lemma arff_columns_all data cols :
  NoDup cols ->
  Forall (fun row => (length cols <= length row)%nat) data ->
  forall m k, (k + m = length cols)%nat ->
  arff_columns data cols (seq k m) (take k cols) (filled data k)
  = Ok (cols, filled data (length cols)).
Proof.
  intros Hnd Hrows. induction m as [|m IH]; intros k Hk; cbn [seq arff_columns].
  - replace k with (length cols) by lia. rewrite firstn_all. reflexivity.
  - destruct (lookup_lt_is_Some_2 cols k) as [name Hname]; [lia|].
    rewrite (getitem_lookup _ _ _ Hname). cbn [mbind res_bind].
    assert (Py.str_in name (take k cols) = false) as ->.
    { destruct (Py.str_in name (take k cols)) eqn:E; [|reflexivity].
      apply str_in_In, list_elem_of_In, list_elem_of_lookup in E as [i Hi].
      pose proof (lookup_lt_Some _ _ _ Hi) as Hlt. rewrite length_take in Hlt.
      rewrite lookup_take_lt in Hi by lia.
      pose proof (NoDup_lookup _ _ _ _ Hnd Hi Hname). lia. }
    assert (arff_fill data k (seq 0 (length data)) (filled data k)
            = Ok (filled data (S k))) as ->.
    { destruct k as [|c].
      - apply (arff_fill_first data (length data) 0); [lia|].
        eapply Forall_impl; [exact Hrows|]. simpl. intros; lia.
      - apply (arff_fill_next data c (length data) 0); [lia|].
        eapply Forall_impl; [exact Hrows|]. simpl. intros; lia. }
    cbn [mbind res_bind]. rewrite <- (take_S_r cols k name Hname).
    apply IH. lia.
Qed.

Lemma attribute_not_blank line :
  Py.startswith line "@ATTRIBUTE" = true -> blank line = false.
Proof.
  rewrite blank_all_space. intros (s' & -> & _)%startswith_cons. reflexivity.
Qed.

Lemma data_marker line :
  Py.startswith line "@DATA" = true ->
  blank line = false /\ Py.startswith line "@ATTRIBUTE" = false.
Proof.
  rewrite blank_all_space.
  intros (s1 & -> & (s2 & -> & _)%startswith_cons)%startswith_cons.
  split; reflexivity.
Qed.

Lemma arff_step_skipped (st : arff_state) line :
  af_flag st <> 1 -> skipped line -> arff_step st line = Ok st.
Proof.
  intros Hf Hs. unfold arff_step, skipped, blank in *.
  destruct (Py.truthy _); [|reflexivity].
  destruct Hs as [Hs | [H1 H2]]; [discriminate|].
  destruct (Z.eqb_spec (af_flag st) 1); [contradiction|].
  rewrite H1, H2. reflexivity.
Qed.

Lemma arff_step_first (st : arff_state) line :
  af_flag st <> 1 -> af_counter st = 0 -> declaration line ->
  arff_step st line =
    Ok (mk_arff (af_flag st) (af_data st) (af_cols st ++ [arff_name line]) 1
          (af_main_var st ++ [arff_entry true line])).
Proof.
  intros Hf Hc [Ha Hl]. pose proof (attribute_not_blank _ Ha) as Hb.
  unfold arff_step, blank, arff_name, arff_entry, tab_field in *.
  destruct (Py.truthy _); [|discriminate].
  destruct (Z.eqb_spec (af_flag st) 1); [contradiction|].
  rewrite Ha, Hc. simpl (1 <? 0 + 1). cbn [andb].
  destruct (Py.split line Py.tab) as [|f0 [|name rest]]; simpl in Hl; try lia.
  reflexivity.
Qed.

Lemma arff_step_later (st : arff_state) line :
  af_flag st <> 1 -> 1 <= af_counter st -> declaration line ->
  arff_step st line =
    Ok (mk_arff (af_flag st) (af_data st) (af_cols st ++ [arff_name line])
          (af_counter st + 1)
          (af_main_var st ++ [arff_entry false line])).
Proof.
  intros Hf Hc [Ha Hl]. pose proof (attribute_not_blank _ Ha) as Hb.
  unfold arff_name, arff_entry, tab_field.
  destruct (Py.split line Py.tab) as [|f0 [|name [|decl rest]]] eqn:E;
    simpl in Hl; try lia.
  rewrite (later_attribute_vals st line f0 name decl rest Hb Hf Hc Ha E).
  reflexivity.
Qed.

Lemma arff_loop_app (st : arff_state) f1 f2 :
  arff_loop st (f1 ++ f2) = st' ← arff_loop st f1; arff_loop st' f2.
Proof.
  revert st. induction f1 as [|line f1 IH]; intros st; simpl; [reflexivity|].
  destruct (arff_step st line); simpl; [apply IH | reflexivity].
Qed.

Lemma arff_loop_skipped pre : forall (st : arff_state),
  af_flag st <> 1 -> Forall skipped pre -> arff_loop st pre = Ok st.
Proof.
  induction pre as [|line pre IH]; intros st Hf Hp; [reflexivity|].
  inversion Hp; subst. cbn [arff_loop].
  rewrite arff_step_skipped by assumption. cbn [mbind res_bind]. auto.
Qed.

Lemma arff_loop_later decls : forall (st : arff_state),
  af_flag st <> 1 -> 1 <= af_counter st -> Forall declaration decls ->
  arff_loop st decls =
    Ok (mk_arff (af_flag st) (af_data st) (af_cols st ++ map arff_name decls)
          (af_counter st + Z.of_nat (length decls))
          (af_main_var st ++ map (arff_entry false) decls)).
Proof.
  induction decls as [|line decls IH]; intros st Hf Hc Hd.
  - simpl. rewrite !app_nil_r, Z.add_0_r. destruct st; reflexivity.
  - inversion Hd; subst. cbn [arff_loop].
    rewrite arff_step_later by assumption. cbn [mbind res_bind].
    rewrite IH by (simpl; assumption || lia).
    cbn [af_flag af_data af_cols af_counter af_main_var map length].
    replace (af_counter st + 1 + Z.of_nat (length decls))
      with (af_counter st + Z.of_nat (S (length decls))) by lia.
    rewrite <- !app_assoc. reflexivity.
Qed.

Lemma arff_loop_rows rows : forall (st : arff_state),
  af_flag st = 1 -> Forall (fun line => blank line = false) rows ->
  arff_loop st rows =
    Ok (mk_arff 1 (af_data st ++ map cells rows) (af_cols st) (af_counter st)
          (af_main_var st)).
Proof.
  induction rows as [|line rows IH]; intros st Hf Hr.
  - simpl. rewrite app_nil_r. destruct st; simpl in *; subst; reflexivity.
  - inversion Hr as [|? ? Hb Hr']; subst. cbn [arff_loop].
    unfold arff_step at 1. unfold blank in Hb.
    destruct (Py.truthy _); [|discriminate]. rewrite Hf. simpl (1 =? 1).
    cbn [mbind res_bind].
    rewrite IH by (simpl; first [assumption | reflexivity]). simpl.
    rewrite <- app_assoc. reflexivity.
Qed.

(** X6.  The ARFF loader on a well-formed file: lines that are passed over,
    then the declarations, each with its three tab-separated fields and
    under names that differ, the [@DATA] line, and rows that are not blank
    and have at least as many cells as there are declarations.  The
    columns are the declared names in their order; every row keeps its
    first cells, one per declaration, and cells beyond them are dropped;
    the metadata has the first declaration without values and every later
    one with the pieces of its third field. *)
Theorem arff_well_formed (pre decls rows : list string) (marker : string) :
  Forall skipped pre ->
  Forall declaration decls ->
  decls <> [] ->
  NoDup (map arff_name decls) ->
  Py.startswith marker "@DATA" = true ->
  Forall (fun line => blank line = false) rows ->
  Forall (fun line => (length decls <= length (cells line))%nat) rows ->
  load_data_arff_lines (pre ++ decls ++ marker :: rows)
  = Ok (mk_df (map arff_name decls)
          (map (fun line => map Some (take (length decls) (cells line))) rows),
        arff_entries decls).
Proof.
  intros Hpre Hdecls Hne Hnd Hmark Hrows Hwide.
  destruct (data_marker _ Hmark) as [Hmb Hma].
  destruct decls as [|d decls]; [contradiction|].
  inversion Hdecls as [|? ? Hd Hds]; subst.
  unfold load_data_arff_lines.
  assert (arff_loop (mk_arff 0 [] [] 0 []) (pre ++ (d :: decls) ++ marker :: rows)
          = Ok (mk_arff 1 (map cells rows) (map arff_name (d :: decls))
                  (1 + Z.of_nat (length decls)) (arff_entries (d :: decls)))) as ->.
  { rewrite arff_loop_app, arff_loop_skipped by (simpl; assumption || lia).
    cbn [mbind res_bind app arff_loop].
    rewrite arff_step_first by (simpl; assumption || lia || reflexivity).
    cbn [mbind res_bind]. rewrite arff_loop_app.
    rewrite arff_loop_later by (simpl; assumption || lia).
    cbn [mbind res_bind arff_loop af_flag af_data af_cols af_counter af_main_var].
    unfold arff_step at 1. unfold blank in Hmb.
    destruct (Py.truthy (Py.strip marker)); [|discriminate].
    cbn [af_flag]. simpl (0 =? 1). cbv iota. rewrite Hma, Hmark.
    cbn [mbind res_bind]. rewrite arff_loop_rows by (simpl; assumption || reflexivity).
    reflexivity. }
  cbn [mbind res_bind af_data af_cols af_main_var].
  assert (arff_columns (map cells rows) (map arff_name (d :: decls))
            (seq 0 (length (map arff_name (d :: decls)))) [] []
          = Ok (map arff_name (d :: decls),
                map (take (S (length decls))) (map cells rows))) as ->.
  { pose proof (arff_columns_all (map cells rows) (map arff_name (d :: decls)) Hnd)
      as Hcols.
    rewrite (length_map arff_name) in Hcols.
    specialize (Hcols ltac:(rewrite List.Forall_map; exact Hwide)
                  (length (d :: decls)) 0%nat eq_refl).
    rewrite (length_map arff_name). exact Hcols. }
  cbn [mbind res_bind].
  pose proof (pd_DataFrame_uniform
                (map (take (S (length decls))) (map cells rows))
                (map arff_name (d :: decls)) ltac:(discriminate)) as Hdf.
  destruct (pd_DataFrame _ _) as [df|]; cbn [mbind res_bind] in *.
  - rewrite (f_equal (fun r => match r with Ok x => x | Raise _ => df end)
               (Hdf ltac:(
                 rewrite !List.Forall_map; eapply Forall_impl; [exact Hwide|];
                 simpl; intros line Hl; rewrite length_take, length_map;
                 simpl in Hl; lia))).
    rewrite !map_map. reflexivity.
  - exfalso. assert (Raise e = Ok (mk_df (map arff_name (d :: decls))
        (map (map Some) (map (take (S (length decls))) (map cells rows)))))
      as Habs; [|discriminate].
    apply Hdf. rewrite !List.Forall_map. eapply Forall_impl; [exact Hwide|].
    simpl. intros line Hl. rewrite length_take, length_map. simpl in Hl. lia.
Qed.

(** ** The further properties at concrete inputs *)

Lemma no_found_empty_result_witness :
  Forall (fun line => Py.startswith line "FOUND" = false) [bad_record_line; ln ""] /\
  load_biclusters_lines [bad_record_line; ln ""] = Ok ∅.
Proof.
  assert (Forall (fun line => Py.startswith line "FOUND" = false)
            [bad_record_line; ln ""]) as H by (repeat constructor).
  split; [exact H|]. apply (no_found_empty_result [bad_record_line; ln ""] H).
Defined.

Lemma closed_block_committed_witness :
  exists bs,
    Py.startswith (ln "FOUND") "FOUND" = true /\
    Forall (fun line => Py.startswith line " " = true /\ blank line = false)
      [record_line] /\
    rmap parse_record [record_line] = Ok bs /\
    blank (ln "") = true /\
    (forall r, load_biclusters_lines ([] ++ ln "FOUND" :: [record_line] ++ ln "" :: [])
               = Ok r -> r !! count_found [] = Some bs) /\
    (Forall (fun line => is_ok (parse_record line)) ([] ++ []) ->
     is_ok (load_biclusters_lines ([] ++ ln "FOUND" :: [record_line] ++ ln "" :: []))).
Proof.
  assert (Forall (fun line => Py.startswith line " " = true /\ blank line = false)
            [record_line]) as Hr by (repeat constructor).
  eexists. split; [reflexivity|]. split; [exact Hr|].
  split; [vm_compute; reflexivity|]. split; [reflexivity|].
  apply (closed_block_committed [] [record_line] [] (ln "FOUND") (ln ""));
    [reflexivity | exact Hr | vm_compute; reflexivity | reflexivity].
Defined.

Lemma result_keys_are_block_indices_witness :
  exists r,
    load_biclusters_lines [ln "FOUND"; ln ""] = Ok r /\
    is_Some (r !! 0) /\
    0 <= 0 < count_found [ln "FOUND"; ln ""].
Proof.
  exists (<[0 := []]> ∅).
  assert (load_biclusters_lines [ln "FOUND"; ln ""] = Ok (<[0 := []]> ∅)) as H
    by reflexivity.
  assert (is_Some ((<[0 := []]> (∅ : gmap Z (list bicluster))) !! 0)) as Hk
    by (rewrite lookup_insert_eq; eauto).
  split; [exact H|]. split; [exact Hk|].
  apply (result_keys_are_block_indices [ln "FOUND"; ln ""] _ 0 H Hk).
Defined.

Lemma blank_lines_collapse_witness :
  blank (ln "") = true /\ blank (ln " ") = true /\
  load_biclusters_lines ([ln "FOUND"; record_line] ++ ln "" :: ln " " :: [ln "FOUND"])
  = load_biclusters_lines ([ln "FOUND"; record_line] ++ ln "" :: [ln "FOUND"]).
Proof.
  split; [reflexivity|]. split; [reflexivity|].
  apply (blank_lines_collapse [ln "FOUND"; record_line] [ln "FOUND"] (ln "") (ln " "));
    reflexivity.
Defined.

Lemma bad_record_aborts_load_witness :
  exists bs,
    Forall (fun line => is_ok (parse_record line)) [] /\
    Py.startswith (ln "FOUND") "FOUND" = true /\
    Forall (fun line => Py.startswith line " " = true /\ blank line = false)
      [record_line] /\
    rmap parse_record [record_line] = Ok bs /\
    Py.startswith bad_record_line " " = true /\ blank bad_record_line = false /\
    parse_record bad_record_line = Raise ValueError /\
    load_biclusters_lines ([] ++ ln "FOUND" :: [record_line] ++ bad_record_line :: [ln ""])
    = Raise ValueError.
Proof.
  assert (Forall (fun line => Py.startswith line " " = true /\ blank line = false)
            [record_line]) as Hr by (repeat constructor).
  eexists. split; [constructor|]. split; [reflexivity|]. split; [exact Hr|].
  split; [vm_compute; reflexivity|]. split; [reflexivity|]. split; [reflexivity|].
  split; [vm_compute; reflexivity|].
  eapply (bad_record_aborts_load [] [record_line] [ln ""] (ln "FOUND") bad_record_line);
    [constructor | reflexivity | exact Hr | vm_compute; reflexivity
    | reflexivity | reflexivity | vm_compute; reflexivity].
Defined.

Lemma sequential_renders_witness :
  exists fig1 fig2,
    ("categories" = "categories" \/ "categories" = "coordinates") /\
    figure_for "categories" position_bic id_frame [] = Ok fig1 /\
    figure_for "categories" lifts_bic id_frame [class_meta] = Ok fig2 /\
    let s1 := plot_bicluster init no_files position_bic id_frame [] "run" "categories" in
    let s2 := plot_bicluster (fst (snd s1)) (snd (snd s1)) lifts_bic id_frame
                [class_meta] "run" "categories" in
    fst s1 = Ok () /\ fst s2 = Ok () /\
    counter (fst (snd s2)) = (counter init + 2)%nat /\
    w_html (snd (snd s2)) !! chart_path (chart_dir "categories" "run") (counter init)
      = Some fig1 /\
    w_html (snd (snd s2)) !! chart_path (chart_dir "categories" "run") (counter init + 1)
      = Some fig2.
Proof.
  eexists. eexists. split; [left; reflexivity|].
  split; [vm_compute; reflexivity|]. split; [vm_compute; reflexivity|].
  apply (sequential_renders init no_files position_bic lifts_bic id_frame id_frame
           [] [class_meta] "run" "categories");
    [left; reflexivity | vm_compute; reflexivity | vm_compute; reflexivity].
Defined.

Lemma unknown_mode_is_noop_witness :
  "Categories" <> "categories" /\ "Categories" <> "coordinates" /\
  plot_bicluster init no_files unknown_column_bic id_frame [] "run" "Categories"
  = (Ok (), (init, no_files)).
Proof.
  assert ("Categories" <> "categories") as H1 by discriminate.
  assert ("Categories" <> "coordinates") as H2 by discriminate.
  split; [exact H1|]. split; [exact H2|].
  apply (unknown_mode_is_noop init no_files unknown_column_bic id_frame [] "run"
           "Categories" H1 H2).
Defined.

Lemma non_numeric_cell_fails_before_write_witness :
  color_coordinates position_bic text_frame = Ok [0; 0] /\
  project position_bic text_frame = Ok text_projection /\
  In [text_cell] (df_rows text_projection) /\
  In text_cell [text_cell] /\
  ~ numeric_cell text_cell /\
  plot_parallel_coordinates init no_files position_bic text_frame [] "run"
  = (Raise ValueError, (init, no_files)).
Proof.
  assert (~ numeric_cell text_cell) as Hbad.
  { intros [H | [H | [x H]]]; discriminate. }
  split; [reflexivity|]. split; [reflexivity|]. split; [left; reflexivity|].
  split; [left; reflexivity|]. split; [exact Hbad|].
  apply (non_numeric_cell_fails_before_write init no_files position_bic text_frame
           [] "run" [0; 0] text_projection [text_cell] text_cell);
    [reflexivity | reflexivity | left; reflexivity | left; reflexivity | exact Hbad].
Defined.

Lemma lift_lines_per_declared_value_witness :
  bic_pvalue lifts_bic = Some (1, -2) /\
  bic_lifts lifts_bic = Some two_lifts /\
  vals class_meta <> [] /\
  (length (vals class_meta) <= length two_lifts)%nat /\
  let note := Lit "P-value = " :: Fmt3e (1, -2) :: Lit "<br>Lift:<br>"
              :: concat (zip_with lift_line (vals class_meta) two_lifts) in
  annotate_categories lifts_bic (first_meta (class_meta :: [])) = Ok [note] /\
  annotate_coordinates lifts_bic (first_meta (class_meta :: [])) = Ok [note].
Proof.
  assert (vals class_meta <> []) as Hv by discriminate.
  split; [reflexivity|]. split; [reflexivity|]. split; [exact Hv|].
  split; [simpl; lia|].
  apply (lift_lines_per_declared_value lifts_bic class_meta [] (1, -2)
           two_lifts); [reflexivity | reflexivity | exact Hv | simpl; lia].
Defined.

Lemma short_lifts_fail_before_write_witness :
  bic_pvalue short_lifts_bic = Some (1, -2) /\
  bic_lifts short_lifts_bic = Some one_lift /\
  (length one_lift < length (vals class_meta))%nat /\
  is_ok (chart_categories short_lifts_bic id_frame) /\
  is_ok (chart_coordinates short_lifts_bic id_frame) /\
  plot_parallel_categories init no_files short_lifts_bic id_frame [class_meta] "run"
    = (Raise IndexError, (init, no_files)) /\
  plot_parallel_coordinates init no_files short_lifts_bic id_frame [class_meta] "run"
    = (Raise IndexError, (init, no_files)).
Proof.
  assert (is_ok (chart_categories short_lifts_bic id_frame)) as H1
    by (eexists; vm_compute; reflexivity).
  assert (is_ok (chart_coordinates short_lifts_bic id_frame)) as H2
    by (eexists; vm_compute; reflexivity).
  split; [reflexivity|]. split; [reflexivity|]. split; [simpl; lia|].
  split; [exact H1|]. split; [exact H2|].
  destruct (short_lifts_fail_before_write init no_files short_lifts_bic id_frame
              class_meta [] "run" (1, -2) one_lift eq_refl eq_refl
              ltac:(simpl; lia)) as [Hcat Hnum].
  split; [exact (Hcat H1) | exact (Hnum H2)].
Defined.

Lemma missing_key_fails_before_write_witness :
  (bic_cols empty_bic = None \/ (bic_lines empty_bic = None /\ df_rows id_frame <> [])) /\
  exists e1 e2,
    is_LookupError e1 = true /\ is_LookupError e2 = true /\
    plot_parallel_categories init no_files empty_bic id_frame [] "run"
      = (Raise e1, (init, no_files)) /\
    plot_parallel_coordinates init no_files empty_bic id_frame [] "run"
      = (Raise e2, (init, no_files)).
Proof.
  split; [left; reflexivity|].
  apply (missing_key_fails_before_write init no_files empty_bic id_frame [] "run").
  left. reflexivity.
Defined.

Lemma chart_frame_shape_witness :
  exists fig1 fig2,
    NoDup (df_columns id_frame) /\
    chart_categories position_bic id_frame = Ok fig1 /\
    chart_coordinates position_bic id_frame = Ok fig2 /\
    (exists names,
       bic_cols position_bic = Some names /\
       df_columns (fig_data fig1) = names ++ ["color"] /\
       fig_dimensions fig1 = names /\
       length (df_rows (fig_data fig1)) = length (df_rows id_frame)) /\
    (exists names,
       bic_cols position_bic = Some names /\
       df_columns (fig_data fig2) = names ++ ["color"] /\
       fig_dimensions fig2 = names /\
       length (df_rows (fig_data fig2)) = length (df_rows id_frame)).
Proof.
  assert (NoDup (df_columns id_frame)) as Hnd.
  { apply NoDup_ListNoDup. repeat constructor; simpl; intros H;
      repeat destruct H as [H|H]; discriminate || contradiction. }
  eexists. eexists. split; [exact Hnd|].
  split; [vm_compute; reflexivity|]. split; [vm_compute; reflexivity|].
  split.
  - apply (chart_frame_shape position_bic id_frame _ Hnd).
    left. vm_compute. reflexivity.
  - apply (chart_frame_shape position_bic id_frame _ Hnd).
    right. vm_compute. reflexivity.
Defined.

Lemma join_split_witness :
  "," <> "" /\ Py.join "," (Py.split "a,b,,c" ",") = "a,b,,c".
Proof.
  assert ("," <> "") as H by discriminate.
  split; [exact H|]. apply (join_split "a,b,,c" "," H).
Defined.

Lemma csv_rows_kept_witness :
  Forall (fun line => length (cells line) = length (cells (ln "a,b")))
    [ln "1,2"; ln "3,4"] /\
  load_data_csv_lines (ln "a,b" :: [ln "1,2"; ln "3,4"])
  = Ok (mk_df (cells (ln "a,b"))
          (map (fun line => map Some (cells line)) [ln "1,2"; ln "3,4"]), []).
Proof.
  assert (Forall (fun line => length (cells line) = length (cells (ln "a,b")))
            [ln "1,2"; ln "3,4"]) as H by (repeat constructor).
  split; [exact H|]. apply (csv_rows_kept (ln "a,b") [ln "1,2"; ln "3,4"] H).
Defined.

Lemma txt_shape_witness :
  Forall (fun line => length (bar_cells line) = 3%nat) [ln "r1|1|2|"; ln "r2|3|4|"] /\
  load_data_txt_lines small_txt
  = Ok (mk_df ["lines"; "a"; "b"]
          [[Some "r1"; Some "1"; Some "2"]; [Some "r2"; Some "3"; Some "4"]], []).
Proof.
  assert (Forall (fun line => length (bar_cells line) = 3%nat)
            [ln "r1|1|2|"; ln "r2|3|4|"]) as H by (repeat constructor).
  split; [exact H|].
  exact (txt_shape (ln "title") (ln "cols: [a, b]") [ln "r1|1|2|"; ln "r2|3|4|"] H).
Defined.

Lemma arff_columns_distinct_witness :
  load_data_arff_lines plain_arff
  = Ok (mk_df ["a"; "b"] [[Some "1"; Some "2"]],
        [mk_meta "a" []; mk_meta "b" ["NUMERIC"]]) /\
  NoDup ["a"; "b"] /\ (length ["a"; "b"] <= 2)%nat.
Proof.
  assert (load_data_arff_lines plain_arff
          = Ok (mk_df ["a"; "b"] [[Some "1"; Some "2"]],
                [mk_meta "a" []; mk_meta "b" ["NUMERIC"]])) as H
    by (vm_compute; reflexivity).
  split; [exact H|]. exact (arff_columns_distinct plain_arff _ _ H).
Defined.

Lemma load_data_rectangular_witness :
  exists df main_var w',
    load_data arff_files "minimal.arff" = (Ok (Some (df, main_var)), w') /\
    rectangular df /\
    (Py.endswith "minimal.arff" ".arff" = false -> main_var = []).
Proof.
  eexists. eexists. eexists.
  split; [vm_compute; reflexivity|].
  eapply (load_data_rectangular arff_files _ "minimal.arff").
  vm_compute. reflexivity.
Defined.

Lemma arff_well_formed_witness :
  Forall skipped [ln "@RELATION r"] /\
  Forall declaration
    [tabbed ["@ATTRIBUTE"; "attr1"; "NUMERIC"]; tabbed ["@ATTRIBUTE"; "attr2"; "{A,B}"]] /\
  [tabbed ["@ATTRIBUTE"; "attr1"; "NUMERIC"]; tabbed ["@ATTRIBUTE"; "attr2"; "{A,B}"]]
    <> [] /\
  NoDup (map arff_name
    [tabbed ["@ATTRIBUTE"; "attr1"; "NUMERIC"]; tabbed ["@ATTRIBUTE"; "attr2"; "{A,B}"]]) /\
  Py.startswith (ln "@DATA") "@DATA" = true /\
  Forall (fun line => blank line = false) [ln "1,A,x"; ln "2,B"] /\
  Forall (fun line => (2 <= length (cells line))%nat) [ln "1,A,x"; ln "2,B"] /\
  load_data_arff_lines
    ([ln "@RELATION r"]
     ++ [tabbed ["@ATTRIBUTE"; "attr1"; "NUMERIC"]; tabbed ["@ATTRIBUTE"; "attr2"; "{A,B}"]]
     ++ ln "@DATA" :: [ln "1,A,x"; ln "2,B"])
  = Ok (mk_df
          (map arff_name
             [tabbed ["@ATTRIBUTE"; "attr1"; "NUMERIC"];
              tabbed ["@ATTRIBUTE"; "attr2"; "{A,B}"]])
          (map (fun line => map Some (take 2 (cells line))) [ln "1,A,x"; ln "2,B"]),
        arff_entries
          [tabbed ["@ATTRIBUTE"; "attr1"; "NUMERIC"];
           tabbed ["@ATTRIBUTE"; "attr2"; "{A,B}"]]).
Proof.
  assert (Forall skipped [ln "@RELATION r"]) as H1.
  { constructor; [right; split; reflexivity | constructor]. }
  assert (Forall declaration
            [tabbed ["@ATTRIBUTE"; "attr1"; "NUMERIC"];
             tabbed ["@ATTRIBUTE"; "attr2"; "{A,B}"]]) as H2.
  { repeat constructor; vm_compute; lia. }
  assert (NoDup (map arff_name
            [tabbed ["@ATTRIBUTE"; "attr1"; "NUMERIC"];
             tabbed ["@ATTRIBUTE"; "attr2"; "{A,B}"]])) as H3.
  { apply NoDup_ListNoDup. vm_compute. repeat constructor; simpl; intros H;
      repeat destruct H as [H|H]; discriminate || contradiction. }
  assert (Forall (fun line => blank line = false) [ln "1,A,x"; ln "2,B"]) as H4
    by (repeat constructor).
  assert (Forall (fun line => (2 <= length (cells line))%nat) [ln "1,A,x"; ln "2,B"])
    as H5 by (repeat constructor; vm_compute; lia).
  split; [exact H1|]. split; [exact H2|]. split; [discriminate|].
  split; [exact H3|]. split; [reflexivity|]. split; [exact H4|]. split; [exact H5|].
  apply (arff_well_formed [ln "@RELATION r"]
           [tabbed ["@ATTRIBUTE"; "attr1"; "NUMERIC"];
            tabbed ["@ATTRIBUTE"; "attr2"; "{A,B}"]]
           [ln "1,A,x"; ln "2,B"] (ln "@DATA") H1 H2 ltac:(discriminate) H3
           eq_refl H4 H5).
Defined.
